(** * Task tracker backend: authentication and task ownership

    A shallow embedding of the Express handlers of the backend
    (controllers/taskController.js, controllers/authController.js,
    middleware/auth.js, routes/tasks.js) together with the Mongoose
    schemas they rely on (models/Task.js, models/User.js).

    Conventions of the embedding.
    - A JavaScript string is a [string] of 8-bit code units read as
      Latin-1; [String.length] is the JavaScript [length].
    - A member of a JSON request body is [option string]: [None] is a
      member that is absent ([undefined] after destructuring), [Some s]
      a member that holds the string [s].  Members holding [null],
      numbers, booleans, arrays or objects are outside the embedding.
    - A MongoDB collection is a finite map from [_id] to document plus
      the state of the ObjectId generator.  An [_id] in a route is a
      well-formed ObjectId.
    - Handlers are [async] functions run one request at a time; each is
      a function from the collection to a response and a collection.
      The clock ([Date.now()], in milliseconds) and the salt drawn by
      [bcrypt.genSalt] are explicit arguments.
    - The store is always reachable: of the exceptions that end in a
      handler's [catch] block, those Mongoose raises on the data
      (validation, duplicate key) are part of the embedding. *)

From Stdlib Require Import Ascii String.
From stdpp Require Import base option list gmap strings sorting.

Abbreviation ObjectId := nat (only parsing).

(** ** JavaScript string primitives *)

Module JS.

(** [arr.includes(x)] on an array of string literals. *)
Definition includes (arr : list string) (x : string) : bool :=
  bool_decide (x ∈ arr).

(** WhiteSpace and LineTerminator code units below 256:
    TAB, LF, VT, FF, CR, SP and NBSP. *)
Definition is_white_space (c : ascii) : bool :=
  let n := nat_of_ascii c in
  ((9 <=? n) && (n <=? 13)) || (n =? 32) || (n =? 160).

Fixpoint trimStart (s : string) : string :=
  match s with
  | String c s' => if is_white_space c then trimStart s' else s
  | EmptyString => EmptyString
  end.

Definition trimEnd (s : string) : string :=
  String.rev (trimStart (String.rev s)).

(** [s.trim()] *)
Definition trim (s : string) : string := trimEnd (trimStart s).

(** Upper-case letters below 256 are A-Z and the range U+00C0-U+00DE
    without the multiplication sign; each maps 32 code units up. *)
Definition lower_char (c : ascii) : ascii :=
  let n := nat_of_ascii c in
  if ((65 <=? n) && (n <=? 90))
     || ((192 <=? n) && (n <=? 222) && negb (n =? 215))
  then ascii_of_nat (n + 32) else c.

(** [s.toLowerCase()] *)
Fixpoint toLowerCase (s : string) : string :=
  match s with
  | String c s' => String (lower_char c) (toLowerCase s')
  | EmptyString => EmptyString
  end.

(** [s.split(sep)] for a one-character separator: every occurrence of
    the separator ends a component, so the result is never empty and
    adjacent separators give empty components. *)
Fixpoint split (sep : ascii) (s : string) : list string :=
  match s with
  | EmptyString => [EmptyString]
  | String c s' =>
      if Ascii.eqb c sep then EmptyString :: split sep s'
      else match split sep s' with
           | w :: ws => String c w :: ws
           | [] => [String c EmptyString]
           end
  end.

End JS.

(** ** Errors thrown by Mongoose or by the MongoDB driver *)

Inductive MongooseError :=
| ValidationError (path : string)
| DuplicateKeyError (path : string).

(** ** The Task model (models/Task.js) *)

Record Task := mkTask {
  title : string;
  description : string;
  priority : string;
  status : string;
  userId : ObjectId;
  createdAt : N;
  updatedAt : N;
}.

Global Instance Task_eq_dec : EqDecision Task.
Proof. solve_decision. Defined.

(** A collection: the documents by [_id], and the next ObjectId the
    driver's generator hands out. *)
Record Collection (D : Type) := mkCollection {
  docs : gmap nat D;
  next_id : ObjectId;
}.
Arguments mkCollection {D} _ _.
Arguments docs {D} _.
Arguments next_id {D} _.

Definition empty_collection {D : Type} : Collection D := mkCollection ∅ 0.

Module TaskModel.

Definition priority_enum : list string := ["High"; "Medium"; "Low"].
Definition status_enum : list string := ["Pending"; "Completed"].

(** Assignments to a path run the schema's setters: [trim: true] on
    [title] and [description]. *)
Definition set_title (t : Task) (v : string) : Task :=
  mkTask (JS.trim v) (description t) (priority t) (status t) (userId t)
         (createdAt t) (updatedAt t).
Definition set_description (t : Task) (v : string) : Task :=
  mkTask (title t) (JS.trim v) (priority t) (status t) (userId t)
         (createdAt t) (updatedAt t).
Definition set_priority (t : Task) (v : string) : Task :=
  mkTask (title t) (description t) v (status t) (userId t)
         (createdAt t) (updatedAt t).
Definition set_status (t : Task) (v : string) : Task :=
  mkTask (title t) (description t) (priority t) v (userId t)
         (createdAt t) (updatedAt t).
Definition set_updatedAt (t : Task) (v : N) : Task :=
  mkTask (title t) (description t) (priority t) (status t) (userId t)
         (createdAt t) v.

(** The schema's validators, in the order of its paths: [title] is
    required (a required string is a non-empty one), [priority] is
    required and in its enum, [status] is required and in its enum. *)
Definition validate (t : Task) : option MongooseError :=
  if bool_decide (title t = "") then Some (ValidationError "title")
  else if negb (JS.includes priority_enum (priority t))
  then Some (ValidationError "priority")
  else if negb (JS.includes status_enum (status t))
  then Some (ValidationError "status")
  else None.

(** [Task.create({ title, description, priority, userId })]: the
    setters run on the given paths, [status] takes its default,
    [timestamps: true] stamps both dates, validation runs, and the
    document is inserted under a new ObjectId. *)
Definition create (now : N) (ttl desc prio : string) (uid : ObjectId)
    (db : Collection Task)
    : MongooseError + (ObjectId * Task) * Collection Task :=
  let doc := mkTask (JS.trim ttl) (JS.trim desc) prio "Pending" uid now now in
  match validate doc with
  | Some e => inl e
  | None =>
      let id := next_id db in
      inr ((id, doc), mkCollection (<[id := doc]> (docs db)) (S id))
  end.

(** [Task.find({ userId }).sort({ createdAt: -1 })] *)
Definition newer_first (a b : ObjectId * Task) : Prop :=
  (createdAt b.2 ≤ createdAt a.2)%N.

Global Instance newer_first_dec : RelDecision newer_first.
Proof. intros a b. unfold newer_first. apply _. Defined.

Definition find_sorted (uid : ObjectId) (db : Collection Task)
    : list (ObjectId * Task) :=
  merge_sort newer_first
    (filter (λ d, userId d.2 = uid) (map_to_list (docs db))).

(** [Task.findOne({ _id: taskId, userId })] *)
Definition findOne (taskId uid : ObjectId) (db : Collection Task)
    : option Task :=
  match docs db !! taskId with
  | Some t => if decide (userId t = uid) then Some t else None
  | None => None
  end.

(** [task.save()] on a document loaded as [orig] under [id]:
    validation runs; when some path was modified [updatedAt] is
    stamped and the document written back, otherwise nothing is
    written. *)
Definition save (now : N) (id : ObjectId) (orig doc : Task)
    (db : Collection Task) : MongooseError + Task * Collection Task :=
  match validate doc with
  | Some e => inl e
  | None =>
      if decide (doc = orig) then inr (doc, db)
      else
        let doc' := set_updatedAt doc now in
        inr (doc', mkCollection (<[id := doc']> (docs db)) (next_id db))
  end.

(** [Task.findByIdAndDelete(taskId)] *)
Definition findByIdAndDelete (taskId : ObjectId) (db : Collection Task)
    : Collection Task :=
  mkCollection (delete taskId (docs db)) (next_id db).

End TaskModel.

(** ** Requests and responses *)

(** The members of [req.body] that some handler or client names. *)
Record Body := mkBody {
  body_title : option string;
  body_description : option string;
  body_priority : option string;
  body_status : option string;
  body_userId : option string;
  body_email : option string;
  body_password : option string;
}.

Record Request := mkRequest {
  authorization : option string;   (* req.headers.authorization *)
  params_id : ObjectId;            (* req.params.id *)
  body : Body;                     (* req.body *)
}.

(** A request after the guard ran [req.userId = decoded.userId]. *)
Record AuthedRequest := mkAuthed {
  request : Request;
  req_userId : ObjectId;
}.

Inductive Payload :=
| NoPayload
| ErrorPayload (error : MongooseError)
| TasksPayload (count : nat) (tasks : list (ObjectId * Task))
| TaskPayload (task : ObjectId * Task)
| AuthPayload (token : string) (uid : ObjectId).

(** [res.status(code).json({ success, message, ... })] *)
Record Response := mkResponse {
  statusCode : nat;
  success : bool;
  message : option string;
  payload : Payload;
}.

Definition failure (code : nat) (msg : string) : Response :=
  mkResponse code false (Some msg) NoPayload.

Definition server_error (msg : string) (e : MongooseError) : Response :=
  mkResponse 500 false (Some msg) (ErrorPayload e).

(** ** The task controller (controllers/taskController.js) *)

Definition getAllTasks (req : AuthedRequest) (db : Collection Task)
    : Response * Collection Task :=
  let userId := req_userId req in
  let tasks := TaskModel.find_sorted userId db in
  (mkResponse 200 true None (TasksPayload (length tasks) tasks), db).

Definition createTask (now : N) (req : AuthedRequest) (db : Collection Task)
    : Response * Collection Task :=
  let userId := req_userId req in
  let title := body_title (body (request req)) in
  let description := body_description (body (request req)) in
  let priority := body_priority (body (request req)) in
  match title, priority with
  | Some (String _ _ as title), Some (String _ _ as priority) =>
      if negb (JS.includes TaskModel.priority_enum priority)
      then (failure 400 "Priority must be High, Medium, or Low", db)
      else
        let description :=           (* description || '' *)
          match description with
          | Some (String _ _ as d) => d
          | _ => ""
          end in
        match TaskModel.create now title description priority userId db with
        | inr (task, db') =>
            (mkResponse 201 true (Some "Task created successfully")
               (TaskPayload task), db')
        | inl e => (server_error "Error creating task" e, db)
        end
  | _, _ =>                          (* !title || !priority *)
      (failure 400 "Please provide title and priority", db)
  end.

(** A handler either returns a response early or goes on. *)
Global Instance early_bind : MBind (sum Response) :=
  λ A B k m,
    match m with
    | inl r => inl r
    | inr a => k a
    end.

(** The assignments of [updateTask] to the loaded document, up to
    [task.save()]. *)
Definition apply_update (b : Body) (task : Task) : Response + Task :=
  let title := body_title b in
  let description := body_description b in
  let priority := body_priority b in
  let status := body_status b in
  let task :=
    match title with
    | Some (String _ _ as v) => TaskModel.set_title task v
    | _ => task
    end in
  let task :=
    match description with
    | Some v => TaskModel.set_description task v
    | None => task
    end in
  task ← match priority with
         | Some (String _ _ as v) =>
             if negb (JS.includes TaskModel.priority_enum v)
             then inl (failure 400 "Priority must be High, Medium, or Low")
             else inr (TaskModel.set_priority task v)
         | _ => inr task
         end;
  task ← match status with
         | Some (String _ _ as v) =>
             if negb (JS.includes TaskModel.status_enum v)
             then inl (failure 400 "Status must be Pending or Completed")
             else inr (TaskModel.set_status task v)
         | _ => inr task
         end;
  inr task.

Definition updateTask (now : N) (req : AuthedRequest) (db : Collection Task)
    : Response * Collection Task :=
  let userId := req_userId req in
  let taskId := params_id (request req) in
  match TaskModel.findOne taskId userId db with
  | None =>
      (failure 404 "Task not found or you do not have permission to update it",
       db)
  | Some loaded =>
      match apply_update (body (request req)) loaded with
      | inl r => (r, db)
      | inr task =>
          match TaskModel.save now taskId loaded task db with
          | inr (task', db') =>
              (mkResponse 200 true (Some "Task updated successfully")
                 (TaskPayload (taskId, task')), db')
          | inl e => (server_error "Error updating task" e, db)
          end
      end
  end.

Definition deleteTask (req : AuthedRequest) (db : Collection Task)
    : Response * Collection Task :=
  let userId := req_userId req in
  let taskId := params_id (request req) in
  match TaskModel.findOne taskId userId db with
  | None =>
      (failure 404 "Task not found or you do not have permission to delete it",
       db)
  | Some _ =>
      (mkResponse 200 true (Some "Task deleted successfully") NoPayload,
       TaskModel.findByIdAndDelete taskId db)
  end.

Definition markTaskCompleted (now : N) (req : AuthedRequest)
    (db : Collection Task) : Response * Collection Task :=
  let userId := req_userId req in
  let taskId := params_id (request req) in
  match TaskModel.findOne taskId userId db with
  | None =>
      (failure 404 "Task not found or you do not have permission to update it",
       db)
  | Some loaded =>
      let task := TaskModel.set_status loaded "Completed" in
      match TaskModel.save now taskId loaded task db with
      | inr (task', db') =>
          (mkResponse 200 true (Some "Task marked as completed")
             (TaskPayload (taskId, task')), db')
      | inl e => (server_error "Error marking task as completed" e, db)
      end
  end.

(** ** What the server takes from its libraries and its environment *)

(** The payload of a token: [{ userId, iat, exp }]. *)
Record JwtPayload := mkJwt {
  jwt_userId : ObjectId;
  iat : N;                         (* issued at, in seconds *)
  exp : N;                         (* expires at, in seconds *)
}.

Class Platform := {
  (** jsonwebtoken: the signed encoding of a payload under a key, and
      its inverse, which yields nothing for a malformed token or a bad
      signature. *)
  jwt_encode : JwtPayload → string → string;
  jwt_decode : string → string → option JwtPayload;
  (** bcryptjs: [bcrypt.hash(password, salt)] and
      [bcrypt.compare(entered, hash)]. *)
  bcrypt_hash : string → string → string;
  bcrypt_compare : string → string → bool;
  (** [process.env.JWT_SECRET] *)
  JWT_SECRET : string;
}.

(** ** The User model (models/User.js) *)

Record User := mkUser {
  email : string;
  password : string;               (* the stored hash *)
  user_createdAt : N;
  user_updatedAt : N;
}.

Global Instance User_eq_dec : EqDecision User.
Proof. solve_decision. Defined.

Module UserModel.

(** The setters of the [email] path: [lowercase: true], [trim: true]. *)
Definition normalize_email (v : string) : string :=
  JS.trim (JS.toLowerCase v).

(** The documents whose stored [email] is [e]. *)
Definition by_email (e : string) (db : Collection User) : gmap nat User :=
  filter (λ d, email d.2 = e) (docs db).

Definition lookup_email (e : string) (db : Collection User)
    : option (ObjectId * User) :=
  head (map_to_list (by_email e db)).

(** [User.findOne({ email })]: the filter is cast through the schema,
    which runs the setters of the path on it. *)
Definition findOne (em : string) (db : Collection User)
    : option (ObjectId * User) :=
  lookup_email (normalize_email em) db.

Section Create.

Context {platform : Platform}.

(** [userSchema.pre('save', ...)]: a password that was modified, as
    that of a new document is, is replaced by its hash under a salt
    drawn for the occasion. *)
Definition pre_save (salt : string) (isModified_password : bool) (u : User)
    : User :=
  if negb isModified_password then u
  else mkUser (email u) (bcrypt_hash (password u) salt)
              (user_createdAt u) (user_updatedAt u).

(** [User.create({ email, password })]: setters, then validation
    ([email] required; [password] required with [minlength: 6], checked
    on the value as given), then the [pre('save')] hook, then the
    insert, which the unique index on [email] refuses for a
    duplicate. *)
Definition create (now : N) (salt em pw : string) (db : Collection User)
    : MongooseError + (ObjectId * User) * Collection User :=
  let e := normalize_email em in
  if bool_decide (e = "") then inl (ValidationError "email")
  else if String.length pw <? 6 then inl (ValidationError "password")
  else
    let doc := pre_save salt true (mkUser e pw now now) in
    match lookup_email e db with
    | Some _ => inl (DuplicateKeyError "email")
    | None =>
        let id := next_id db in
        inr ((id, doc), mkCollection (<[id := doc]> (docs db)) (S id))
    end.

End Create.

End UserModel.

(** ** Tokens (jsonwebtoken) *)

Section Backend.

Context {platform : Platform}.

Definition seconds (now : N) : N := (now / 1000)%N.

Definition seven_days : N := (7 * 24 * 60 * 60)%N.

(** [jwt.sign(payload, secret, { expiresIn: '7d' })] *)
Definition jwt_sign (now : N) (uid : ObjectId) (secret : string) : string :=
  jwt_encode (mkJwt uid (seconds now) (seconds now + seven_days)%N) secret.

(** [jwt.verify(token, secret)]: throws (here [None]) when the token
    does not decode under the secret or when the clock has reached its
    [exp]. *)
Definition jwt_verify (now : N) (token secret : string)
    : option JwtPayload :=
  match jwt_decode token secret with
  | Some decoded => if (exp decoded <=? seconds now)%N then None else Some decoded
  | None => None
  end.

(** *** The auth controller (controllers/authController.js) *)

Definition generateToken (now : N) (userId : ObjectId) : string :=
  jwt_sign now userId JWT_SECRET.

(** [user.comparePassword(enteredPassword)] of models/User.js *)
Definition comparePassword (user : User) (enteredPassword : string) : bool :=
  bcrypt_compare enteredPassword (password user).

Definition register (now : N) (salt : string) (req : Request)
    (db : Collection User) : Response * Collection User :=
  let email := body_email (body req) in
  let password := body_password (body req) in
  match email, password with
  | Some (String _ _ as email), Some (String _ _ as password) =>
      match UserModel.findOne email db with
      | Some existingUser =>
          (failure 400 "User with this email already exists", db)
      | None =>
          match UserModel.create now salt email password db with
          | inr ((id, user), db') =>
              let token := generateToken now id in
              (mkResponse 201 true (Some "User registered successfully")
                 (AuthPayload token id), db')
          | inl e => (server_error "Error registering user" e, db)
          end
      end
  | _, _ =>                          (* !email || !password *)
      (failure 400 "Please provide both email and password", db)
  end.

Definition login (now : N) (req : Request) (db : Collection User)
    : Response * Collection User :=
  let email := body_email (body req) in
  let password := body_password (body req) in
  match email, password with
  | Some (String _ _ as email), Some (String _ _ as password) =>
      match UserModel.findOne email db with
      | None => (failure 401 "Invalid email or password", db)
      | Some (id, user) =>
          if negb (comparePassword user password)
          then (failure 401 "Invalid email or password", db)
          else
            let token := generateToken now id in
            (mkResponse 200 true (Some "Login successful")
               (AuthPayload token id), db)
      end
  | _, _ =>
      (failure 400 "Please provide both email and password", db)
  end.

(** *** The guard (middleware/auth.js) *)

(** [authHeader.split(' ')[1]] *)
Definition header_token (authHeader : string) : option string :=
  JS.split " " authHeader !! 1.

(** The guard answers itself ([inl]) or calls [next()] on the request
    with [req.userId] set ([inr]). *)
Definition authMiddleware (now : N) (req : Request)
    : Response + AuthedRequest :=
  match authorization req with
  | Some (String _ _ as authHeader) =>
      match header_token authHeader with
      | Some (String _ _ as token) =>
          match jwt_verify now token JWT_SECRET with
          | Some decoded => inr (mkAuthed req (jwt_userId decoded))
          | None =>
              inl (failure 401
                     "Invalid or expired token. Authorization denied.")
          end
      | _ => inl (failure 401 "Token not found. Authorization denied.")
      end
  | _ => inl (failure 401 "No token provided. Authorization denied.")
  end.

(** *** The task routes (routes/tasks.js) *)

Inductive TaskRoute :=
| GET_tasks              (* router.get('/', ...) *)
| POST_tasks             (* router.post('/', ...) *)
| PUT_task               (* router.put('/:id', ...) *)
| DELETE_task            (* router.delete('/:id', ...) *)
| PATCH_task_complete.   (* router.patch('/:id/complete', ...) *)

Definition task_handler (r : TaskRoute) (now : N)
    : AuthedRequest → Collection Task → Response * Collection Task :=
  match r with
  | GET_tasks => getAllTasks
  | POST_tasks => createTask now
  | PUT_task => updateTask now
  | DELETE_task => deleteTask
  | PATCH_task_complete => markTaskCompleted now
  end.

(** [router.METHOD(path, authMiddleware, handler)]: the handler runs
    only when the guard calls [next()]. *)
Definition guarded {S : Type} (now : N)
    (handler : AuthedRequest → S → Response * S) (req : Request) (db : S)
    : Response * S :=
  match authMiddleware now req with
  | inl res => (res, db)
  | inr req' => handler req' db
  end.

Definition router (r : TaskRoute) (now : N)
    : Request → Collection Task → Response * Collection Task :=
  guarded now (task_handler r now).

(** The user collections that requests to /api/auth can produce. *)
Inductive users_reachable : Collection User → Prop :=
| users_initial : users_reachable empty_collection
| users_after_register now salt req db :
    users_reachable db → users_reachable (register now salt req db).2
| users_after_login now req db :
    users_reachable db → users_reachable (login now req db).2.

End Backend.

(** The task collections that requests to /api/tasks can produce. *)
Inductive tasks_reachable : Collection Task → Prop :=
| tasks_initial : tasks_reachable empty_collection
| tasks_after r now req db :
    tasks_reachable db → tasks_reachable (task_handler r now req db).2.

(** Every stored task passes the validators of its schema, under an
    ObjectId the generator has already handed out. *)
Definition schema_ok (db : Collection Task) : Prop :=
  ∀ id t, docs db !! id = Some t →
    TaskModel.validate t = None ∧ id < next_id db.

(** The tasks a response carries. *)
Definition listed (res : Response) : list (ObjectId * Task) :=
  match payload res with
  | TasksPayload _ tasks => tasks
  | _ => []
  end.

(** A body member that holds a non-empty string outside an enum. *)
Definition bad_value (enum : list string) (x : option string) : Prop :=
  ∃ v, x = Some v ∧ v ≠ "" ∧ v ∉ enum.

(** A body member that holds a non-empty string of white space only. *)
Definition blank (x : option string) : Prop :=
  ∃ v, x = Some v ∧ v ≠ "" ∧ JS.trim v = "".

(** What [updateTask] assigns to each path of a loaded task. *)
Definition updated_title (b : Body) (t : Task) : string :=
  match body_title b with
  | Some (String _ _ as v) => JS.trim v
  | _ => title t
  end.
Definition updated_description (b : Body) (t : Task) : string :=
  match body_description b with
  | Some v => JS.trim v
  | None => description t
  end.
Definition updated_priority (b : Body) (t : Task) : string :=
  match body_priority b with
  | Some (String _ _ as v) => v
  | _ => priority t
  end.
Definition updated_status (b : Body) (t : Task) : string :=
  match body_status b with
  | Some (String _ _ as v) => v
  | _ => status t
  end.

(** *** Sample data *)

Definition no_body : Body := mkBody None None None None None None None.

Definition task_request (uid id : ObjectId) (b : Body) : AuthedRequest :=
  mkAuthed (mkRequest None id b) uid.

(** One task of user 1, created at time 5 under id 0. *)
Definition sample_task : Task := mkTask "A" "" "High" "Pending" 1 5 5.

Definition sample_create : AuthedRequest :=
  task_request 1 0
    (mkBody (Some "A") None (Some "High") None None None None).

Definition sample_db : Collection Task :=
  (createTask 5 sample_create empty_collection).2.

(** The sample task after its owner completed it at time 7. *)
Definition completed_db : Collection Task :=
  (markTaskCompleted 7 (task_request 1 0 no_body) sample_db).2.

Definition completed_task : Task := mkTask "A" "" "High" "Completed" 1 5 7.

(** Update requests of the owner on the sample task. *)
Definition reopen_request : AuthedRequest :=
  task_request 1 0
    (mkBody None None None (Some "Pending") None None None).

Definition empty_priority_request : AuthedRequest :=
  task_request 1 0 (mkBody None None (Some "") None None None None).

Definition retitle_empty_priority_request : AuthedRequest :=
  task_request 1 0 (mkBody (Some "New") None (Some "") None None None None).

Definition bad_priority_request : AuthedRequest :=
  task_request 1 0
    (mkBody (Some "New") None (Some "Urgent") None None None None).

(** A create request whose description has white space around it. *)
Definition padded_create : AuthedRequest :=
  task_request 1 0
    (mkBody (Some "A") (Some " x ") (Some "High") (Some "Completed")
       (Some "2") None None).

(** *** Words of the statements about the guard *)

(** A string in which the code unit [c] does not occur. *)
Definition free_of (c : ascii) (s : string) : Prop :=
  c ∉ list_ascii_of_string s.

(** Follows the spec's words, not the code: the second component of a
    header value cut at white space. *)
Definition second_whitespace_component (authHeader : string)
    : option string :=
  String.words authHeader !! 1.

(** No two stored users share an email. *)
Definition emails_unique (db : Collection User) : Prop :=
  ∀ i j u v,
    docs db !! i = Some u → docs db !! j = Some v → email u = email v → i = j.

(** *** Stand-ins for the libraries, to run the handlers on sample data *)

Module Toy.

(** Numbers in binary, least significant bit first. *)
Fixpoint enc_pos (p : positive) : string :=
  match p with
  | xH => ""
  | xO p => String "0" (enc_pos p)
  | xI p => String "1" (enc_pos p)
  end.

Fixpoint dec_pos (s : string) : option positive :=
  match s with
  | EmptyString => Some xH
  | String c s =>
      if Ascii.eqb c "0" then xO <$> dec_pos s
      else if Ascii.eqb c "1" then xI <$> dec_pos s
      else None
  end.

Definition enc_N (n : N) : string := enc_pos (N.succ_pos n).
Definition dec_N (s : string) : option N := Pos.pred_N <$> dec_pos s.

(** A token is the three members of the payload and the key, joined
    by dots; it decodes under the key it was made with. *)
Definition encode (p : JwtPayload) (key : string) : string :=
  enc_N (N.of_nat (jwt_userId p)) +:+
  String "." (enc_N (iat p) +:+ String "." (enc_N (exp p) +:+ String "." key)).

Definition decode (token key : string) : option JwtPayload :=
  match JS.split "." token with
  | u :: i :: e :: k =>
      if bool_decide (JS.split "." key = k) then
        u' ← dec_N u; i' ← dec_N i; e' ← dec_N e;
        Some (mkJwt (N.to_nat u') i' e')
      else None
  | _ => None
  end.

(** A hash is the password reversed, whatever the salt. *)
Definition hash (pw salt : string) : string := String.rev pw.

Definition compare (entered hashed : string) : bool :=
  bool_decide (hashed = String.rev entered).

Definition secret : string := "s3cret".

Definition platform : Platform := {|
  jwt_encode := encode;
  jwt_decode := decode;
  bcrypt_hash := hash;
  bcrypt_compare := compare;
  JWT_SECRET := secret;
|}.

End Toy.

Definition auth_request (em pw : string) : Request :=
  mkRequest None 0 (mkBody None None None None None (Some em) (Some pw)).

Definition bearer_request (authHeader : string) : Request :=
  mkRequest (Some authHeader) 0 no_body.

(** Alice registers at time 5000. *)
Definition alice_registers : Response * Collection User :=
  register (platform := Toy.platform) 5000 "salt"
    (auth_request "Alice@X.com " "secret1") empty_collection.

Definition alice_token : string :=
  jwt_sign (platform := Toy.platform) 5000 0 Toy.secret.

(** A header whose two words are separated by a tab. *)
Definition tab_header : string :=
  "Bearer" +:+ String "009" alice_token.

(** ** The API service of the client (frontend/src/services/api.js) *)

(** What the service keeps: the [token] entry of [localStorage] and the
    default [Authorization] header of its axios instance. *)
Record Client := mkClient {
  localStorage_token : option string;
  default_Authorization : option string;
}.

(** A promise of the service: axios resolves on a status from 200 to
    299 and rejects, with the response in the error, on any other. *)
Inductive Outcome (A : Type) :=
| Resolved (data : A)
| Rejected (res : Response).
Arguments Resolved {A} _.
Arguments Rejected {A} _.

(** What a login or registration form hands to the service. *)
Record Credentials := mkCredentials {
  cred_email : string;
  cred_password : string;
}.

(** What the task form hands to the service. *)
Record FormData := mkFormData {
  form_title : string;
  form_description : string;
  form_priority : string;
}.

Module Api.

Definition validateStatus (res : Response) : bool :=
  (200 <=? statusCode res) && (statusCode res <? 300).

Definition setAuthToken (token : option string) (c : Client) : Client :=
  match token with
  | Some (String _ _ as token) =>
      mkClient (Some token) (Some ("Bearer " +:+ token))
  | _ => mkClient None None
  end.

Definition getAuthToken (c : Client) : option string :=
  localStorage_token c.

Definition initAuthToken (c : Client) : Client :=
  let token := getAuthToken c in
  match token with
  | Some (String _ _ as token) => setAuthToken (Some token) c
  | _ => c
  end.

Definition logoutUser (c : Client) : Client := setAuthToken None c.

(** A page reload: [localStorage] survives, the axios instance is
    created anew. *)
Definition reload (c : Client) : Client :=
  mkClient (localStorage_token c) None.

(** The request axios sends: the default header when there is one. *)
Definition request_of (c : Client) (id : ObjectId) (b : Body) : Request :=
  mkRequest (default_Authorization c) id b.

Definition credentials_body (userData : Credentials) : Body :=
  mkBody None None None None None
    (Some (cred_email userData)) (Some (cred_password userData)).

Definition form_body (taskData : FormData) : Body :=
  mkBody (Some (form_title taskData)) (Some (form_description taskData))
    (Some (form_priority taskData)) None None None None.

(** [if (response.data.token) setAuthToken(response.data.token)] *)
Definition save_token (res : Response) (c : Client) : Client :=
  match payload res with
  | AuthPayload (String _ _ as token) _ => setAuthToken (Some token) c
  | _ => c
  end.

(** [response.data.task] *)
Definition data_task (res : Response) : option (ObjectId * Task) :=
  match payload res with
  | TaskPayload task => Some task
  | _ => None
  end.

Section Calls.

Context {platform : Platform}.

Definition registerUser (now : N) (salt : string) (userData : Credentials)
    (c : Client) (users : Collection User)
    : Outcome Response * Client * Collection User :=
  let '(response, users') :=
    register now salt (request_of c 0 (credentials_body userData)) users in
  if validateStatus response
  then (Resolved response, save_token response c, users')
  else (Rejected response, c, users').

Definition loginUser (now : N) (userData : Credentials)
    (c : Client) (users : Collection User)
    : Outcome Response * Client * Collection User :=
  let '(response, users') :=
    login now (request_of c 0 (credentials_body userData)) users in
  if validateStatus response
  then (Resolved response, save_token response c, users')
  else (Rejected response, c, users').

Definition getAllTasks (now : N) (c : Client) (db : Collection Task)
    : Outcome (list (ObjectId * Task)) * Collection Task :=
  let '(response, db') := router GET_tasks now (request_of c 0 no_body) db in
  if validateStatus response then (Resolved (listed response), db')
  else (Rejected response, db').

Definition createTask (now : N) (taskData : FormData) (c : Client)
    (db : Collection Task)
    : Outcome (option (ObjectId * Task)) * Collection Task :=
  let '(response, db') :=
    router POST_tasks now (request_of c 0 (form_body taskData)) db in
  if validateStatus response then (Resolved (data_task response), db')
  else (Rejected response, db').

Definition updateTask (now : N) (taskId : ObjectId) (taskData : FormData)
    (c : Client) (db : Collection Task)
    : Outcome (option (ObjectId * Task)) * Collection Task :=
  let '(response, db') :=
    router PUT_task now (request_of c taskId (form_body taskData)) db in
  if validateStatus response then (Resolved (data_task response), db')
  else (Rejected response, db').

Definition deleteTask (now : N) (taskId : ObjectId) (c : Client)
    (db : Collection Task) : Outcome Response * Collection Task :=
  let '(response, db') :=
    router DELETE_task now (request_of c taskId no_body) db in
  if validateStatus response then (Resolved response, db')
  else (Rejected response, db').

Definition markTaskCompleted (now : N) (taskId : ObjectId) (c : Client)
    (db : Collection Task)
    : Outcome (option (ObjectId * Task)) * Collection Task :=
  let '(response, db') :=
    router PATCH_task_complete now (request_of c taskId no_body) db in
  if validateStatus response then (Resolved (data_task response), db')
  else (Rejected response, db').

End Calls.

End Api.

(** ** The task form (components/TaskForm.js) *)

Module TaskForm.

Record State := mkState {
  formData : FormData;
  error : string;
}.

(** [useState({ title: '', description: '', priority: 'Medium' })] *)
Definition blank_form : FormData := mkFormData "" "" "Medium".

(** The effect on [task]: in edit mode the form takes the task's
    values, in create mode it is reset. *)
Definition populate (task : option Task) (st : State) : State :=
  match task with
  | Some task =>
      mkState
        (mkFormData (title task) (description task)
           (match priority task with
            | String _ _ as p => p
            | _ => "Medium"
            end))
        (error st)
  | None => mkState blank_form (error st)
  end.

(** [handleSubmit]: the state it leaves and what it passes to
    [onSubmit], if it calls it. *)
Definition handleSubmit (task : option Task) (st : State)
    : State * option FormData :=
  match JS.trim (form_title (formData st)) with
  | EmptyString => (mkState (formData st) "Task title is required", None)
  | String _ _ =>
      match form_priority (formData st) with
      | EmptyString =>
          (mkState (formData st) "Please select a priority", None)
      | String _ _ =>
          let submitted :=
            mkFormData (JS.trim (form_title (formData st)))
              (form_description (formData st))
              (form_priority (formData st)) in
          (match task with
           | None => mkState blank_form (error st)
           | Some _ => st
           end, Some submitted)
      end
  end.

End TaskForm.

(** ** The registration form (components/Register.js) *)

Module Register.

Record FormState := mkFormState {
  email_field : string;
  password_field : string;
  confirmPassword_field : string;
}.

(** [handleSubmit] up to the call of the service: the error it shows,
    or the credentials it sends. *)
Definition handleSubmit (formData : FormState) : string + Credentials :=
  match email_field formData, password_field formData,
        confirmPassword_field formData with
  | String _ _, String _ _, String _ _ =>
      if negb (bool_decide
                 (password_field formData = confirmPassword_field formData))
      then inl "Passwords do not match"
      else if String.length (password_field formData) <? 6
      then inl "Password must be at least 6 characters long"
      else inr (mkCredentials (email_field formData)
                  (password_field formData))
  | _, _, _ => inl "Please fill in all fields"
  end.

End Register.

(** ** The task list (components/TaskList.js) *)

Module TaskList.

(** The predicate of [filteredTasks]. *)
Definition shown (statusFilter priorityFilter : string)
    (task : ObjectId * Task) : bool :=
  if negb (bool_decide (statusFilter = "All"))
     && negb (bool_decide (status task.2 = statusFilter))
  then false
  else if negb (bool_decide (priorityFilter = "All"))
          && negb (bool_decide (priority task.2 = priorityFilter))
  then false
  else true.

Definition filteredTasks (statusFilter priorityFilter : string)
    (tasks : list (ObjectId * Task)) : list (ObjectId * Task) :=
  filter (λ task, shown statusFilter priorityFilter task = true) tasks.

Definition pendingCount (tasks : list (ObjectId * Task)) : nat :=
  length (filter (λ t, status t.2 = "Pending") tasks).

Definition completedCount (tasks : list (ObjectId * Task)) : nat :=
  length (filter (λ t, status t.2 = "Completed") tasks).

(** [tasks.filter((task) => task._id !== taskId)] *)
Definition handleTaskDelete (taskId : ObjectId)
    (tasks : list (ObjectId * Task)) : list (ObjectId * Task) :=
  filter (λ task, task.1 ≠ taskId) tasks.

(** [tasks.map((task) => task._id === updatedTask._id ? updatedTask : task)] *)
Definition handleTaskComplete (updatedTask : ObjectId * Task)
    (tasks : list (ObjectId * Task)) : list (ObjectId * Task) :=
  (λ task, if decide (task.1 = updatedTask.1) then updatedTask else task)
    <$> tasks.

End TaskList.

(** *** Sample data of the client *)

Definition sample_form : TaskForm.State :=
  TaskForm.mkState (mkFormData "  Write report " " draft " "High") "".

Definition sample_registration : Register.FormState :=
  Register.mkFormState "Bob@X.com" "hunter22" "hunter22".

Definition sample_client : Client := mkClient None None.

(** * Properties *)

(** ** Ownership and listing *)

Lemma findOne_Some taskId uid db t :
  TaskModel.findOne taskId uid db = Some t ↔
  docs db !! taskId = Some t ∧ userId t = uid.
Proof.
  unfold TaskModel.findOne.
  destruct (docs db !! taskId) as [t'|]; [|split; [done|intros [? _]; done]].
  case_decide; split; intros; destruct_and?; simplify_eq; auto.
Qed.

Lemma findOne_other_owner taskId uid db t :
  docs db !! taskId = Some t → userId t ≠ uid →
  TaskModel.findOne taskId uid db = None.
Proof.
  intros Ht Hne. unfold TaskModel.findOne. rewrite Ht.
  case_decide; congruence.
Qed.

Lemma find_sorted_elem uid db id t :
  (id, t) ∈ TaskModel.find_sorted uid db ↔
  docs db !! id = Some t ∧ userId t = uid.
Proof.
  unfold TaskModel.find_sorted.
  rewrite merge_sort_Permutation, list_elem_of_filter, elem_of_map_to_list.
  simpl. tauto.
Qed.

Global Instance newer_first_total : Total TaskModel.newer_first.
Proof. intros a b. unfold TaskModel.newer_first. lia. Qed.

Global Instance newer_first_trans : Transitive TaskModel.newer_first.
Proof. intros a b c. unfold TaskModel.newer_first. lia. Qed.

(** C1. A task owned by someone else is never listed for the caller,
    and update, delete and complete on its id answer 404 and leave the
    collection, hence the task, as it was. *)
Theorem C1_ownership_isolation (now : N) (req : AuthedRequest)
    (db : Collection Task) (id : ObjectId) (t : Task) :
  docs db !! id = Some t →
  userId t ≠ req_userId req →
  params_id (request req) = id →
  (∀ t', (id, t') ∉ listed (getAllTasks req db).1) ∧
  (getAllTasks req db).2 = db ∧
  (∃ msg, updateTask now req db = (failure 404 msg, db)) ∧
  (∃ msg, deleteTask req db = (failure 404 msg, db)) ∧
  (∃ msg, markTaskCompleted now req db = (failure 404 msg, db)).
Proof.
  intros Ht Hne Hid.
  pose proof (findOne_other_owner _ _ _ _ Ht Hne) as Hnone.
  split; [|split; [done|]].
  - intros t' Hin. simpl in Hin.
    apply find_sorted_elem in Hin as [Ht' Ho]. congruence.
  - unfold updateTask, deleteTask, markTaskCompleted.
    rewrite Hid, Hnone. repeat split; eexists; reflexivity.
Qed.

(** C8. The list operation answers 200 with exactly the caller's tasks,
    each once, ordered by creation time, newest first, and does not
    change the collection. *)
Theorem C8_list_newest_first (req : AuthedRequest) (db : Collection Task) :
  ∃ l,
    getAllTasks req db =
      (mkResponse 200 true None (TasksPayload (length l) l), db) ∧
    (∀ id t, (id, t) ∈ l ↔
       docs db !! id = Some t ∧ userId t = req_userId req) ∧
    NoDup l ∧
    StronglySorted (λ a b, (createdAt b.2 ≤ createdAt a.2)%N) l.
Proof.
  exists (TaskModel.find_sorted (req_userId req) db).
  split; [done|]. split; [apply find_sorted_elem|]. split.
  - unfold TaskModel.find_sorted. rewrite merge_sort_Permutation.
    apply NoDup_filter, NoDup_map_to_list.
  - apply (StronglySorted_merge_sort TaskModel.newer_first).
Qed.

(** ** The schema invariant *)

Lemma validate_None t :
  TaskModel.validate t = None ↔
  title t ≠ "" ∧ priority t ∈ TaskModel.priority_enum ∧
  status t ∈ TaskModel.status_enum.
Proof.
  unfold TaskModel.validate, JS.includes.
  case_bool_decide as Ht; [split; [done|by intros [? _]]|].
  case_bool_decide as Hp; simpl; [|split; [done|by intros (_ & ? & _)]].
  case_bool_decide as Hs; simpl; [|split; [done|by intros (_ & _ & ?)]].
  done.
Qed.

Lemma create_schema_ok now ttl desc prio uid db r db' :
  schema_ok db →
  TaskModel.create now ttl desc prio uid db = inr (r, db') →
  schema_ok db'.
Proof.
  intros Hok. unfold TaskModel.create.
  destruct (TaskModel.validate _) eqn:Hv; [done|].
  intros [= <- <-] id t. simpl.
  destruct (decide (next_id db = id)) as [<-|Hne].
  - rewrite lookup_insert_eq. intros [= <-]. split; [done|lia].
  - rewrite lookup_insert_ne by done. intros Ht.
    destruct (Hok _ _ Ht). split; [done|lia].
Qed.

Lemma save_schema_ok now id orig doc db r db' :
  schema_ok db →
  TaskModel.save now id orig doc db = inr (r, db') →
  id < next_id db →
  schema_ok db'.
Proof.
  intros Hok. unfold TaskModel.save.
  destruct (TaskModel.validate doc) eqn:Hv; [done|].
  case_decide; intros [= <- <-] Hlt; [done|].
  intros j t. simpl.
  destruct (decide (id = j)) as [<-|Hne].
  - rewrite lookup_insert_eq. intros [= <-]. done.
  - rewrite lookup_insert_ne by done. apply Hok.
Qed.

Lemma delete_schema_ok id db :
  schema_ok db → schema_ok (TaskModel.findByIdAndDelete id db).
Proof.
  intros Hok j t. simpl. intros [_ Ht]%lookup_delete_Some. by apply Hok.
Qed.

Lemma task_handler_schema_ok r now req db :
  schema_ok db → schema_ok (task_handler r now req db).2.
Proof.
  intros Hok. destruct r; simpl.
  - done.
  - unfold createTask.
    destruct (body_title _) as [[|c s]|]; try done.
    destruct (body_priority _) as [[|c' s']|]; try done.
    destruct (negb _); [done|].
    destruct (TaskModel.create _ _ _ _ _ _) as [e|[r db']] eqn:Hc; [done|].
    simpl. eapply create_schema_ok; eauto.
  - unfold updateTask.
    destruct (TaskModel.findOne _ _ _) as [t|] eqn:Hf; [|done].
    apply findOne_Some in Hf as [Hf _].
    destruct (apply_update _ _); [done|].
    destruct (TaskModel.save _ _ _ _ _) as [|[]] eqn:Hs; [done|]. simpl.
    eapply save_schema_ok; eauto. by apply (Hok _ _ Hf).
  - unfold deleteTask.
    destruct (TaskModel.findOne _ _ _); [|done].
    by apply delete_schema_ok.
  - unfold markTaskCompleted.
    destruct (TaskModel.findOne _ _ _) as [t|] eqn:Hf; [|done].
    apply findOne_Some in Hf as [Hf _].
    destruct (TaskModel.save _ _ _ _ _) as [|[]] eqn:Hs; [done|]. simpl.
    eapply save_schema_ok; eauto. by apply (Hok _ _ Hf).
Qed.

Lemma tasks_reachable_schema_ok db : tasks_reachable db → schema_ok db.
Proof.
  induction 1 as [|r now req db _ IH].
  - intros id t. simpl. by rewrite lookup_empty.
  - by apply task_handler_schema_ok.
Qed.

(** ** Completion *)

Lemma save_unchanged now id t db :
  TaskModel.validate t = None →
  TaskModel.save now id t t db = inr (t, db).
Proof.
  intros Hv. unfold TaskModel.save. rewrite Hv. by rewrite decide_True.
Qed.

Lemma markTaskCompleted_owned now req db t :
  TaskModel.validate t = None →
  docs db !! params_id (request req) = Some t →
  userId t = req_userId req →
  ∃ t1 db1,
    markTaskCompleted now req db =
      (mkResponse 200 true (Some "Task marked as completed")
         (TaskPayload (params_id (request req), t1)), db1) ∧
    docs db1 !! params_id (request req) = Some t1 ∧
    TaskModel.validate t1 = None ∧
    status t1 = "Completed" ∧
    title t1 = title t ∧ description t1 = description t ∧
    priority t1 = priority t ∧ userId t1 = userId t ∧
    createdAt t1 = createdAt t.
Proof.
  intros Hv Ht Hown.
  assert (TaskModel.validate (TaskModel.set_status t "Completed") = None)
    as Hv'.
  { apply validate_None in Hv as (? & ? & ?). apply validate_None.
    simpl. repeat split; try done.
    apply (bool_decide_unpack _). vm_compute. exact I. }
  unfold markTaskCompleted.
  rewrite (proj2 (findOne_Some _ _ _ _) (conj Ht Hown)).
  unfold TaskModel.save. rewrite Hv'. case_decide as Heq.
  - rewrite Heq. exists t, db. repeat split; try done.
    by rewrite <- Heq.
  - eexists _, _. split; [reflexivity|]. simpl.
    by rewrite lookup_insert_eq.
Qed.

(** C4. On a task of the caller, in any collection the API can reach,
    the complete operation answers 200 with the task in status
    Completed whatever its status was, stores it so, and a second call
    right after answers 200 with the same Completed task. *)
Theorem C4_complete_idempotent (now1 now2 : N) (req : AuthedRequest)
    (db : Collection Task) (t : Task) :
  tasks_reachable db →
  docs db !! params_id (request req) = Some t →
  userId t = req_userId req →
  ∃ t1 db1,
    markTaskCompleted now1 req db =
      (mkResponse 200 true (Some "Task marked as completed")
         (TaskPayload (params_id (request req), t1)), db1) ∧
    status t1 = "Completed" ∧
    docs db1 !! params_id (request req) = Some t1 ∧
    title t1 = title t ∧ description t1 = description t ∧
    priority t1 = priority t ∧ userId t1 = userId t ∧
    createdAt t1 = createdAt t ∧
    markTaskCompleted now2 req db1 =
      (mkResponse 200 true (Some "Task marked as completed")
         (TaskPayload (params_id (request req), t1)), db1).
Proof.
  intros Hreach Ht Hown.
  destruct (tasks_reachable_schema_ok _ Hreach _ _ Ht) as [Hv _].
  destruct (markTaskCompleted_owned now1 req db t Hv Ht Hown)
    as (t1 & db1 & Hrun & Ht1 & Hv1 & Hst & Htt & Hd & Hp & Hu & Hc).
  exists t1, db1. repeat split; try done.
  unfold markTaskCompleted.
  assert (userId t1 = req_userId req) as Hown1 by congruence.
  rewrite (proj2 (findOne_Some _ _ _ _) (conj Ht1 Hown1)).
  assert (TaskModel.set_status t1 "Completed" = t1) as ->.
  { destruct t1; simpl in *; by subst. }
  by rewrite save_unchanged.
Qed.

(** ** Update *)

Lemma updateTask_not_found now req db :
  (∀ t, docs db !! params_id (request req) = Some t →
        userId t ≠ req_userId req) →
  ∃ msg, updateTask now req db = (failure 404 msg, db).
Proof.
  intros Habs. unfold updateTask.
  destruct (TaskModel.findOne _ _ _) as [t|] eqn:Hf; [|eauto].
  apply findOne_Some in Hf as [Ht Ho]. by destruct (Habs _ Ht).
Qed.

Lemma apply_update_bad_enum b t :
  bad_value TaskModel.priority_enum (body_priority b) ∨
  bad_value TaskModel.status_enum (body_status b) →
  ∃ msg, apply_update b t = inl (failure 400 msg).
Proof.
  unfold apply_update, JS.includes, mbind, early_bind.
  destruct b as [tt dd pp ss bu be bp]. simpl.
  intros [(p & -> & Hne & Hbad)|(s & -> & Hne & Hbad)].
  - destruct p as [|c p]; [done|].
    rewrite bool_decide_eq_false_2 by done. simpl. eauto.
  - destruct s as [|c s]; [done|].
    rewrite (bool_decide_eq_false_2 (String c s ∈ _)) by done. simpl.
    destruct pp as [[|c' p]|]; simpl; eauto.
    case_bool_decide; simpl; eauto.
Qed.

Lemma updateTask_bad_enum now req db t :
  docs db !! params_id (request req) = Some t →
  userId t = req_userId req →
  bad_value TaskModel.priority_enum (body_priority (body (request req))) ∨
  bad_value TaskModel.status_enum (body_status (body (request req))) →
  ∃ msg, updateTask now req db = (failure 400 msg, db).
Proof.
  intros Ht Ho Hbad. unfold updateTask.
  rewrite (proj2 (findOne_Some _ _ _ _) (conj Ht Ho)).
  destruct (apply_update_bad_enum _ t Hbad) as [msg ->]. eauto.
Qed.

Lemma includes_not_bad enum v :
  v ≠ "" → ¬ bad_value enum (Some v) → bool_decide (v ∈ enum) = true.
Proof.
  intros Hne Hnb. apply bool_decide_eq_true_2.
  destruct (decide (v ∈ enum)); [done|]. destruct Hnb. by exists v.
Qed.

Lemma apply_update_ok b t :
  ¬ bad_value TaskModel.priority_enum (body_priority b) →
  ¬ bad_value TaskModel.status_enum (body_status b) →
  apply_update b t =
    inr (mkTask (updated_title b t) (updated_description b t)
                (updated_priority b t) (updated_status b t)
                (userId t) (createdAt t) (updatedAt t)).
Proof.
  unfold apply_update, JS.includes, mbind, early_bind, updated_title,
    updated_description, updated_priority, updated_status.
  destruct b as [tt dd pp ss bu be bp], t as [t1 t2 t3 t4 t5 t6 t7]. simpl.
  intros Hp Hs.
  destruct pp as [[|c p]|], ss as [[|c' s]|]; simpl;
    rewrite ?(includes_not_bad _ (String c p)) by done;
    rewrite ?(includes_not_bad _ (String c' s)) by done; simpl;
    by destruct tt as [[|]|], dd.
Qed.

Lemma updated_valid b t :
  TaskModel.validate t = None →
  ¬ bad_value TaskModel.priority_enum (body_priority b) →
  ¬ bad_value TaskModel.status_enum (body_status b) →
  ¬ blank (body_title b) →
  TaskModel.validate
    (mkTask (updated_title b t) (updated_description b t)
            (updated_priority b t) (updated_status b t)
            (userId t) (createdAt t) (updatedAt t)) = None.
Proof.
  intros (Ht & Hp & Hs)%validate_None Hbp Hbs Hbl. apply validate_None.
  unfold updated_title, updated_priority, updated_status. simpl.
  repeat split.
  - destruct (body_title b) as [[|c v]|]; try done.
    intros Htrim. apply Hbl. by exists (String c v).
  - destruct (body_priority b) as [[|c v]|]; try done.
    destruct (decide (String c v ∈ TaskModel.priority_enum)); [done|].
    destruct Hbp. by exists (String c v).
  - destruct (body_status b) as [[|c v]|]; try done.
    destruct (decide (String c v ∈ TaskModel.status_enum)); [done|].
    destruct Hbs. by exists (String c v).
Qed.

Lemma updateTask_applies now req db t :
  TaskModel.validate t = None →
  docs db !! params_id (request req) = Some t →
  userId t = req_userId req →
  ¬ bad_value TaskModel.priority_enum (body_priority (body (request req))) →
  ¬ bad_value TaskModel.status_enum (body_status (body (request req))) →
  ¬ blank (body_title (body (request req))) →
  ∃ t' db',
    updateTask now req db =
      (mkResponse 200 true (Some "Task updated successfully")
         (TaskPayload (params_id (request req), t')), db') ∧
    docs db' !! params_id (request req) = Some t' ∧
    (∀ j, j ≠ params_id (request req) → docs db' !! j = docs db !! j) ∧
    title t' = updated_title (body (request req)) t ∧
    description t' = updated_description (body (request req)) t ∧
    priority t' = updated_priority (body (request req)) t ∧
    status t' = updated_status (body (request req)) t ∧
    userId t' = userId t ∧
    createdAt t' = createdAt t.
Proof.
  intros Hv Ht Ho Hbp Hbs Hbl. unfold updateTask.
  rewrite (proj2 (findOne_Some _ _ _ _) (conj Ht Ho)).
  rewrite (apply_update_ok _ t Hbp Hbs).
  unfold TaskModel.save. rewrite (updated_valid _ t Hv Hbp Hbs Hbl).
  case_decide as Heq.
  - pose proof (f_equal title Heq) as H1.
    pose proof (f_equal description Heq) as H2.
    pose proof (f_equal priority Heq) as H3.
    pose proof (f_equal status Heq) as H4. simpl in H1, H2, H3, H4.
    rewrite Heq. exists t, db. repeat split; done.
  - eexists _, _. split; [reflexivity|]. simpl.
    rewrite lookup_insert_eq. repeat split; try done.
    intros j Hj. by rewrite lookup_insert_ne.
Qed.

(** A title of white space only is assigned trimmed, fails the
    schema's [required] in [task.save()], and gives 500 with nothing
    written. *)
Lemma updateTask_blank_title now req db t :
  docs db !! params_id (request req) = Some t →
  userId t = req_userId req →
  ¬ bad_value TaskModel.priority_enum (body_priority (body (request req))) →
  ¬ bad_value TaskModel.status_enum (body_status (body (request req))) →
  blank (body_title (body (request req))) →
  updateTask now req db =
    (server_error "Error updating task" (ValidationError "title"), db).
Proof.
  intros Ht Ho Hbp Hbs (v & Hv & Hne & Htrim). unfold updateTask.
  rewrite (proj2 (findOne_Some _ _ _ _) (conj Ht Ho)).
  rewrite (apply_update_ok _ t Hbp Hbs).
  unfold TaskModel.save, TaskModel.validate, updated_title. simpl.
  rewrite Hv. destruct v as [|c v]; [done|]. by rewrite Htrim.
Qed.

(** C9, as the code has it.  On a task of the caller, an update whose
    priority or status is a non-empty string outside its enum answers
    400 and leaves the collection as it was, whatever title or
    description the same request carries. *)
Theorem C9_update_bad_enum_atomic (now : N) (req : AuthedRequest)
    (db : Collection Task) (t : Task) :
  docs db !! params_id (request req) = Some t →
  userId t = req_userId req →
  bad_value TaskModel.priority_enum (body_priority (body (request req))) ∨
  bad_value TaskModel.status_enum (body_status (body (request req))) →
  ∃ msg,
    updateTask now req db = (failure 400 msg, db) ∧
    docs (updateTask now req db).2 !! params_id (request req) = Some t.
Proof.
  intros Ht Ho Hbad.
  destruct (updateTask_bad_enum now req db t Ht Ho Hbad) as [msg Hrun].
  exists msg. by rewrite Hrun.
Qed.

(** C3, as the code has it.  In a collection the API can reach, an
    update on an id under which the caller owns no task answers 404;
    on a task of the caller, a non-empty priority or status outside its
    enum answers 400 with nothing written; otherwise, unless the title
    is a non-empty string of white space only, the answer is 200 and
    the stored task takes the trimmed title when it is a non-empty
    string, the trimmed description when it is present, the priority
    and the status when they are non-empty strings, and keeps every
    other path, so status Pending reopens a Completed task. *)
Theorem C3_update_contract (now : N) (req : AuthedRequest)
    (db : Collection Task) :
  tasks_reachable db →
  ((∀ t, docs db !! params_id (request req) = Some t →
         userId t ≠ req_userId req) →
   ∃ msg, updateTask now req db = (failure 404 msg, db)) ∧
  (∀ t,
     docs db !! params_id (request req) = Some t →
     userId t = req_userId req →
     (bad_value TaskModel.priority_enum
        (body_priority (body (request req))) ∨
      bad_value TaskModel.status_enum (body_status (body (request req))) →
      ∃ msg, updateTask now req db = (failure 400 msg, db)) ∧
     (¬ bad_value TaskModel.priority_enum
          (body_priority (body (request req))) →
      ¬ bad_value TaskModel.status_enum
          (body_status (body (request req))) →
      ¬ blank (body_title (body (request req))) →
      ∃ t' db',
        updateTask now req db =
          (mkResponse 200 true (Some "Task updated successfully")
             (TaskPayload (params_id (request req), t')), db') ∧
        docs db' !! params_id (request req) = Some t' ∧
        (∀ j, j ≠ params_id (request req) → docs db' !! j = docs db !! j) ∧
        title t' = updated_title (body (request req)) t ∧
        description t' = updated_description (body (request req)) t ∧
        priority t' = updated_priority (body (request req)) t ∧
        status t' = updated_status (body (request req)) t ∧
        userId t' = userId t ∧
        createdAt t' = createdAt t)).
Proof.
  intros Hreach. split; [apply updateTask_not_found|].
  intros t Ht Ho. split; [by apply (updateTask_bad_enum _ _ _ t)|].
  destruct (tasks_reachable_schema_ok _ Hreach _ _ Ht) as [Hv _].
  by apply updateTask_applies.
Qed.

(** ** The task handlers on sample data *)

Lemma sample_db_reachable : tasks_reachable sample_db.
Proof. exact (tasks_after POST_tasks 5 sample_create _ tasks_initial). Defined.

Lemma completed_db_reachable : tasks_reachable completed_db.
Proof.
  exact (tasks_after PATCH_task_complete 7 (task_request 1 0 no_body) _
           sample_db_reachable).
Defined.

(** User 2 lists, and asks to update, delete and complete, the task
    that user 1 created. *)
Lemma C1_ownership_isolation_witness :
  (∀ t', (0, t') ∉ listed (getAllTasks (task_request 2 0 no_body) sample_db).1) ∧
  (getAllTasks (task_request 2 0 no_body) sample_db).2 = sample_db ∧
  (∃ msg, updateTask 9 (task_request 2 0 no_body) sample_db =
            (failure 404 msg, sample_db)) ∧
  (∃ msg, deleteTask (task_request 2 0 no_body) sample_db =
            (failure 404 msg, sample_db)) ∧
  (∃ msg, markTaskCompleted 9 (task_request 2 0 no_body) sample_db =
            (failure 404 msg, sample_db)).
Proof.
  apply (C1_ownership_isolation 9 (task_request 2 0 no_body) sample_db 0
           sample_task).
  - reflexivity.
  - simpl. lia.
  - reflexivity.
Defined.

(** User 1 completes the sample task at time 7 and again at time 8. *)
Lemma C4_complete_idempotent_witness :
  ∃ t1 db1,
    markTaskCompleted 7 (task_request 1 0 no_body) sample_db =
      (mkResponse 200 true (Some "Task marked as completed")
         (TaskPayload (0, t1)), db1) ∧
    status t1 = "Completed" ∧
    docs db1 !! 0 = Some t1 ∧
    title t1 = "A" ∧ description t1 = "" ∧ priority t1 = "High" ∧
    userId t1 = 1 ∧ createdAt t1 = 5%N ∧
    markTaskCompleted 8 (task_request 1 0 no_body) db1 =
      (mkResponse 200 true (Some "Task marked as completed")
         (TaskPayload (0, t1)), db1).
Proof.
  apply (C4_complete_idempotent 7 8 (task_request 1 0 no_body) sample_db
           sample_task).
  - exact sample_db_reachable.
  - reflexivity.
  - reflexivity.
Defined.

Lemma Urgent_not_a_priority : "Urgent" ∉ TaskModel.priority_enum.
Proof. apply (bool_decide_unpack _). vm_compute. exact I. Defined.

Lemma empty_not_a_priority : "" ∉ TaskModel.priority_enum.
Proof. apply (bool_decide_unpack _). vm_compute. exact I. Defined.

(** A new title together with priority Urgent: 400, the task as it
    was. *)
Lemma C9_update_bad_enum_atomic_witness :
  ∃ msg,
    updateTask 9 bad_priority_request sample_db = (failure 400 msg, sample_db) ∧
    docs (updateTask 9 bad_priority_request sample_db).2 !! 0 =
      Some sample_task.
Proof.
  apply (C9_update_bad_enum_atomic 9 bad_priority_request sample_db
           sample_task).
  - reflexivity.
  - reflexivity.
  - left. exists "Urgent". split; [reflexivity|].
    split; [discriminate|exact Urgent_not_a_priority].
Defined.

(** C9 as stated fails: an update carrying a new title and the empty
    string as priority, which is outside the enum, answers 200 and the
    new title is stored. *)
Lemma C9_counterexample :
  body_priority (body (request retitle_empty_priority_request)) = Some "" ∧
  ("" ∉ TaskModel.priority_enum) ∧
  docs sample_db !! 0 = Some sample_task ∧
  statusCode (updateTask 9 retitle_empty_priority_request sample_db).1 = 200 ∧
  docs (updateTask 9 retitle_empty_priority_request sample_db).2 !! 0 =
    Some (mkTask "New" "" "High" "Pending" 1 5 9).
Proof.
  split; [reflexivity|]. split; [exact empty_not_a_priority|].
  repeat split; reflexivity.
Qed.

(** C3 as stated fails: a priority that is present and outside the
    enum, the empty string, does not make the update fail; the answer
    is 200. *)
Lemma C3_counterexample :
  body_priority (body (request empty_priority_request)) = Some "" ∧
  ("" ∉ TaskModel.priority_enum) ∧
  docs sample_db !! 0 = Some sample_task ∧
  userId sample_task = req_userId empty_priority_request ∧
  statusCode (updateTask 9 empty_priority_request sample_db).1 = 200.
Proof.
  split; [reflexivity|]. split; [exact empty_not_a_priority|].
  repeat split; reflexivity.
Qed.

(** The owner reopens the completed sample task with status Pending. *)
Lemma C3_update_contract_witness :
  docs completed_db !! 0 = Some completed_task ∧
  ∃ t' db',
    updateTask 9 reopen_request completed_db =
      (mkResponse 200 true (Some "Task updated successfully")
         (TaskPayload (0, t')), db') ∧
    docs db' !! 0 = Some t' ∧
    status t' = "Pending".
Proof.
  split; [reflexivity|].
  destruct (C3_update_contract 9 reopen_request completed_db
              completed_db_reachable) as [_ Hfound].
  destruct (Hfound completed_task eq_refl eq_refl) as [_ Hok].
  destruct Hok as (t' & db' & Hrun & Hstored & _ & _ & _ & _ & Hst & _).
  - intros (v & Hv & _). discriminate Hv.
  - intros (v & Hv & _ & Hbad). injection Hv as <-. apply Hbad.
    apply (bool_decide_unpack _). vm_compute. exact I.
  - intros (v & Hv & _). discriminate Hv.
  - exists t', db'. auto.
Defined.

(** ** Create *)

Lemma createTask_rejects now req db :
  body_title (body (request req)) = None ∨
  body_title (body (request req)) = Some "" ∨
  (∀ p, body_priority (body (request req)) = Some p →
        p ∉ TaskModel.priority_enum) →
  ∃ msg, createTask now req db = (failure 400 msg, db).
Proof.
  unfold createTask, JS.includes.
  intros [->|[->|Hp]]; [eauto..|].
  destruct (body_title _) as [[|c ttl]|]; [eauto| |eauto].
  destruct (body_priority _) as [[|c' p]|]; [eauto| |eauto].
  rewrite bool_decide_eq_false_2 by auto. simpl. eauto.
Qed.

Lemma createTask_creates now req db ttl p :
  body_title (body (request req)) = Some ttl →
  body_priority (body (request req)) = Some p →
  p ∈ TaskModel.priority_enum →
  JS.trim ttl ≠ "" →
  createTask now req db =
    let t := mkTask (JS.trim ttl)
               (JS.trim (default "" (body_description (body (request req)))))
               p "Pending" (req_userId req) now now in
    (mkResponse 201 true (Some "Task created successfully")
       (TaskPayload (next_id db, t)),
     mkCollection (<[next_id db := t]> (docs db)) (S (next_id db))).
Proof.
  intros Ht Hp Hin Htrim. unfold createTask, JS.includes.
  rewrite Ht, Hp.
  destruct ttl as [|c ttl]; [done|].
  destruct p as [|c' p].
  { by destruct empty_not_a_priority. }
  rewrite bool_decide_eq_true_2 by done. simpl.
  assert (match body_description (body (request req)) with
          | Some (String _ _ as d) => d
          | _ => ""
          end = default "" (body_description (body (request req)))) as ->.
  { by destruct (body_description _) as [[|]|]. }
  unfold TaskModel.create.
  assert (TaskModel.validate
            (mkTask (JS.trim (String c ttl))
               (JS.trim (default "" (body_description (body (request req)))))
               (String c' p) "Pending" (req_userId req) now now) = None)
    as ->; [|done].
  apply validate_None. simpl. repeat split; try done.
  apply (bool_decide_unpack _). vm_compute. exact I.
Qed.

(** A title of white space only passes the controller's check, fails
    the schema's [required] after [trim], and gives 500 with nothing
    stored. *)
Lemma createTask_blank_title now req db ttl p :
  body_title (body (request req)) = Some ttl →
  body_priority (body (request req)) = Some p →
  ttl ≠ "" → p ∈ TaskModel.priority_enum → JS.trim ttl = "" →
  createTask now req db =
    (server_error "Error creating task" (ValidationError "title"), db).
Proof.
  intros Ht Hp Hne Hin Htrim. unfold createTask, JS.includes.
  rewrite Ht, Hp.
  destruct ttl as [|c ttl]; [done|].
  destruct p as [|c' p].
  { by destruct empty_not_a_priority. }
  rewrite bool_decide_eq_true_2 by done. simpl.
  unfold TaskModel.create, TaskModel.validate. simpl.
  by rewrite Htrim.
Qed.

(** In a collection the API can reach, the id a new task gets is not
    in use, so a create request leaves every stored task as it was. *)
Lemma createTask_keeps_others now req db id t :
  tasks_reachable db →
  docs db !! id = Some t →
  docs (createTask now req db).2 !! id = Some t.
Proof.
  intros Hreach Ht.
  destruct (tasks_reachable_schema_ok _ Hreach _ _ Ht) as [_ Hlt].
  unfold createTask.
  destruct (body_title _) as [[|c s]|]; try done.
  destruct (body_priority _) as [[|c' s']|]; try done.
  destruct (negb _); [done|].
  unfold TaskModel.create. destruct (TaskModel.validate _); [done|].
  simpl. rewrite lookup_insert_ne by lia. done.
Qed.

(** C2, as the code has it.  A create request with a missing or empty
    title, or with a priority that is missing or outside High, Medium,
    Low, answers 400 and stores nothing.  Any other request whose title
    is not white space only answers 201 and stores, under a new id, a
    task with status Pending, the title and the description trimmed
    (the description empty when absent), the given priority and the
    caller as owner, whatever status or owner the body carries. *)
Theorem C2_create_contract (now : N) (req : AuthedRequest)
    (db : Collection Task) :
  (body_title (body (request req)) = None ∨
   body_title (body (request req)) = Some "" ∨
   (∀ p, body_priority (body (request req)) = Some p →
         p ∉ TaskModel.priority_enum) →
   ∃ msg, createTask now req db = (failure 400 msg, db)) ∧
  (∀ ttl p,
     body_title (body (request req)) = Some ttl →
     body_priority (body (request req)) = Some p →
     p ∈ TaskModel.priority_enum →
     JS.trim ttl ≠ "" →
     ∃ t,
       createTask now req db =
         (mkResponse 201 true (Some "Task created successfully")
            (TaskPayload (next_id db, t)),
          mkCollection (<[next_id db := t]> (docs db)) (S (next_id db))) ∧
       status t = "Pending" ∧
       description t =
         JS.trim (default "" (body_description (body (request req)))) ∧
       userId t = req_userId req ∧
       title t = JS.trim ttl ∧
       priority t = p ∧
       createdAt t = now).
Proof.
  split; [apply createTask_rejects|].
  intros ttl p Ht Hp Hin Htrim.
  rewrite (createTask_creates now req db ttl p Ht Hp Hin Htrim).
  eexists. split; [reflexivity|]. done.
Qed.

(** A create request that also carries a status and an owner. *)
Lemma C2_create_contract_witness :
  ∃ t,
    createTask 5 padded_create empty_collection =
      (mkResponse 201 true (Some "Task created successfully")
         (TaskPayload (0, t)),
       mkCollection (<[0 := t]> ∅) 1) ∧
    status t = "Pending" ∧
    description t = "x" ∧
    userId t = 1 ∧
    title t = "A" ∧
    priority t = "High" ∧
    createdAt t = 5%N.
Proof.
  destruct (C2_create_contract 5 padded_create empty_collection)
    as [_ Hcreate].
  apply (Hcreate "A" "High").
  - reflexivity.
  - reflexivity.
  - apply (bool_decide_unpack _). vm_compute. exact I.
  - discriminate.
Defined.

(** C2 as stated fails: the stored description is not the supplied
    one when that has white space around it. *)
Lemma C2_counterexample :
  body_description (body (request padded_create)) = Some " x " ∧
  (createTask 5 padded_create empty_collection).1 =
    mkResponse 201 true (Some "Task created successfully")
      (TaskPayload (0, mkTask "A" "x" "High" "Pending" 1 5 5)).
Proof. split; reflexivity. Qed.

(** ** Splitting strings *)

Lemma free_of_cons c a s :
  free_of c (String a s) ↔ c ≠ a ∧ free_of c s.
Proof. unfold free_of. simpl. rewrite not_elem_of_cons. done. Qed.

Lemma split_free sep s : free_of sep s → JS.split sep s = [s].
Proof.
  induction s as [|a s IH]; [done|].
  intros [Hne Hs]%free_of_cons. simpl.
  destruct (Ascii.eqb_spec a sep) as [->|_]; [done|].
  by rewrite IH.
Qed.

Lemma split_app sep s1 s2 :
  free_of sep s1 →
  JS.split sep (s1 +:+ String sep s2) = s1 :: JS.split sep s2.
Proof.
  induction s1 as [|a s1 IH]; simpl.
  - intros _. by rewrite Ascii.eqb_refl.
  - intros [Hne Hs]%free_of_cons.
    destruct (Ascii.eqb_spec a sep) as [->|_]; [done|].
    by rewrite IH.
Qed.

Lemma header_token_scheme scheme tok :
  free_of " " scheme → free_of " " tok →
  header_token (scheme +:+ String " " tok) = Some tok.
Proof.
  intros Hs Ht. unfold header_token.
  by rewrite split_app, split_free.
Qed.

Lemma header_token_single_word h : free_of " " h → header_token h = None.
Proof. intros Hh. unfold header_token. by rewrite split_free. Qed.

(** ** The stand-in token codec decodes what it encodes *)

Lemma toy_dec_enc_pos p : Toy.dec_pos (Toy.enc_pos p) = Some p.
Proof. induction p as [p IH|p IH|]; simpl; by rewrite ?IH. Qed.

Lemma toy_dec_enc_N n : Toy.dec_N (Toy.enc_N n) = Some n.
Proof.
  unfold Toy.dec_N, Toy.enc_N. rewrite toy_dec_enc_pos. simpl.
  by rewrite N.pos_pred_succ.
Qed.

Lemma toy_enc_pos_free p : free_of "." (Toy.enc_pos p).
Proof.
  induction p as [p IH|p IH|]; simpl.
  - apply free_of_cons. split; [done|apply IH].
  - apply free_of_cons. split; [done|apply IH].
  - unfold free_of. simpl. apply not_elem_of_nil.
Qed.

Lemma toy_jwt_roundtrip p :
  Toy.decode (Toy.encode p Toy.secret) Toy.secret = Some p.
Proof.
  unfold Toy.decode, Toy.encode.
  rewrite !split_app by apply toy_enc_pos_free.
  rewrite bool_decide_eq_true_2 by done.
  rewrite !toy_dec_enc_N. simpl. rewrite Nat2N.id. by destruct p.
Qed.

Lemma toy_bcrypt_roundtrip pw salt :
  Toy.compare pw (Toy.hash pw salt) = true.
Proof. unfold Toy.compare, Toy.hash. by apply bool_decide_eq_true_2. Qed.

(** ** The user collection *)

Lemma lookup_email_None e db :
  UserModel.lookup_email e db = None ↔
  ∀ id u, docs db !! id = Some u → email u ≠ e.
Proof.
  unfold UserModel.lookup_email, UserModel.by_email.
  rewrite head_None, map_to_list_empty_iff, map_empty_filter.
  unfold map_Forall. simpl. done.
Qed.

Lemma lookup_email_found e db id u :
  docs db !! id = Some u → email u = e →
  is_Some (UserModel.lookup_email e db).
Proof.
  intros Hu He.
  destruct (UserModel.lookup_email e db) eqn:Hl; [done|].
  exfalso. by apply (proj1 (lookup_email_None _ _) Hl id u).
Qed.

Lemma lookup_email_insert e db id doc nid :
  (∀ i u, docs db !! i = Some u → email u ≠ e) →
  email doc = e →
  UserModel.lookup_email e (mkCollection (<[id := doc]> (docs db)) nid) =
    Some (id, doc).
Proof.
  intros Hfree He. unfold UserModel.lookup_email, UserModel.by_email. simpl.
  rewrite map_filter_insert_True by done.
  assert (filter (λ d : nat * User, email d.2 = e) (docs db) = ∅) as ->.
  { by apply map_empty_filter. }
  by rewrite insert_empty, map_to_list_singleton.
Qed.

Lemma create_emails_unique {platform : Platform} now salt em pw db r db' :
  emails_unique db →
  UserModel.create now salt em pw db = inr (r, db') →
  emails_unique db'.
Proof.
  intros Huniq. unfold UserModel.create.
  case_bool_decide; [done|]. destruct (_ <? _); [done|].
  destruct (UserModel.lookup_email _ db) eqn:Hl; [done|].
  intros [= <- <-] i j u v. simpl.
  pose proof (proj1 (lookup_email_None _ _) Hl) as Hfree.
  destruct (decide (next_id db = i)) as [<-|Hi],
           (decide (next_id db = j)) as [<-|Hj];
    rewrite ?lookup_insert_eq, ?lookup_insert_ne by done.
  - done.
  - intros [= <-] Hv Heq. simpl in Heq. by destruct (Hfree _ _ Hv).
  - intros Hu [= <-] Heq. simpl in Heq. by destruct (Hfree _ _ Hu).
  - apply Huniq.
Qed.

(** ** Registration, login and the guard *)

Section BackendProperties.

Context {platform : Platform}.

Lemma login_keeps_db now req db : (login now req db).2 = db.
Proof.
  unfold login.
  destruct (body_email _) as [[|c em]|]; try done.
  destruct (body_password _) as [[|c' pw]|]; try done.
  destruct (UserModel.findOne _ _) as [[id u]|]; [|done].
  by destruct (negb _).
Qed.

Lemma register_emails_unique now salt req db :
  emails_unique db → emails_unique (register now salt req db).2.
Proof.
  intros Huniq. unfold register.
  destruct (body_email _) as [[|c em]|]; try done.
  destruct (body_password _) as [[|c' pw]|]; try done.
  destruct (UserModel.findOne _ _); [done|].
  destruct (UserModel.create _ _ _ _ _) as [e|[[id u] db']] eqn:Hc; [done|].
  simpl. eapply create_emails_unique; eauto.
Qed.

Lemma register_duplicate now salt req db em id u :
  body_email (body req) = Some em →
  docs db !! id = Some u →
  email u = UserModel.normalize_email em →
  ∃ msg, register now salt req db = (failure 400 msg, db).
Proof.
  intros Hem Hu He. unfold register. rewrite Hem.
  destruct em as [|c em]; [eauto|].
  destruct (body_password _) as [[|c' pw]|]; [eauto| |eauto].
  destruct (lookup_email_found _ _ _ _ Hu He) as [x Hx].
  unfold UserModel.findOne. rewrite Hx. eauto.
Qed.

(** C7. Registering with an email under which a user is stored, the
    email compared as it is stored (lower case, trimmed), answers 400
    and leaves the users as they were; and in every user collection
    that register and login requests can produce from the empty one,
    no two users share an email. *)
Theorem C7_email_uniqueness :
  (∀ now salt req db em id u,
     body_email (body req) = Some em →
     docs db !! id = Some u →
     email u = UserModel.normalize_email em →
     ∃ msg, register now salt req db = (failure 400 msg, db)) ∧
  (∀ db, users_reachable db → emails_unique db).
Proof.
  split; [apply register_duplicate|].
  induction 1 as [|now salt req db _ IH|now req db _ IH].
  - intros i j u v. simpl. by rewrite lookup_empty.
  - by apply register_emails_unique.
  - by rewrite login_keeps_db.
Qed.

Lemma jwt_verify_sign now t uid :
  (∀ p, jwt_decode (jwt_encode p JWT_SECRET) JWT_SECRET = Some p) →
  (seconds t < seconds now + seven_days)%N →
  jwt_userId <$> jwt_verify t (generateToken now uid) JWT_SECRET = Some uid.
Proof.
  intros Hrt Hlt. unfold generateToken, jwt_sign, jwt_verify.
  rewrite Hrt. simpl.
  destruct (N.leb_spec (seconds now + seven_days) (seconds t)); [lia|done].
Qed.

(** C6. For an email that is not empty once trimmed, under which no
    user is stored, and a password of six characters or more, register
    answers 201 with a token and the id of the user it stored, a login
    with the same email and password then answers 200 with a token and
    the same id, and each token, verified before its seven days are
    over, yields that id. *)
Theorem C6_register_login_roundtrip (now1 now2 : N) (salt : string)
    (req : Request) (db : Collection User) (em pw : string) :
  (∀ p, jwt_decode (jwt_encode p JWT_SECRET) JWT_SECRET = Some p) →
  (∀ p s, bcrypt_compare p (bcrypt_hash p s) = true) →
  body_email (body req) = Some em →
  body_password (body req) = Some pw →
  UserModel.normalize_email em ≠ "" →
  6 ≤ String.length pw →
  (∀ id u, docs db !! id = Some u → email u ≠ UserModel.normalize_email em) →
  ∃ uid tok1 tok2 db1,
    register now1 salt req db =
      (mkResponse 201 true (Some "User registered successfully")
         (AuthPayload tok1 uid), db1) ∧
    (∃ u, docs db1 !! uid = Some u ∧
          email u = UserModel.normalize_email em) ∧
    login now2 req db1 =
      (mkResponse 200 true (Some "Login successful")
         (AuthPayload tok2 uid), db1) ∧
    (∀ t, (seconds t < seconds now1 + seven_days)%N →
          jwt_userId <$> jwt_verify t tok1 JWT_SECRET = Some uid) ∧
    (∀ t, (seconds t < seconds now2 + seven_days)%N →
          jwt_userId <$> jwt_verify t tok2 JWT_SECRET = Some uid).
Proof.
  intros Hjwt Hbcrypt Hem Hpw Hvalid Hlen Hfree.
  destruct em as [|c em]; [done|].
  destruct pw as [|c' pw]; [simpl in Hlen; lia|].
  set (e := UserModel.normalize_email (String c em)) in *.
  set (doc := UserModel.pre_save salt true
                (mkUser e (String c' pw) now1 now1)).
  exists (next_id db), (generateToken now1 (next_id db)),
    (generateToken now2 (next_id db)),
    (mkCollection (<[next_id db := doc]> (docs db)) (S (next_id db))).
  split; [|split; [|split; [|split]]].
  - unfold register, UserModel.findOne, UserModel.create.
    rewrite Hem, Hpw. fold e.
    rewrite (proj2 (lookup_email_None e db) Hfree).
    rewrite bool_decide_eq_false_2 by done.
    destruct (Nat.ltb_spec (String.length (String c' pw)) 6); [lia|done].
  - exists doc. simpl. by rewrite lookup_insert_eq.
  - unfold login, UserModel.findOne. rewrite Hem, Hpw. fold e.
    rewrite (lookup_email_insert e db (next_id db) doc) by done.
    unfold comparePassword. simpl. by rewrite Hbcrypt.
  - intros t Ht. by apply jwt_verify_sign.
  - intros t Ht. by apply jwt_verify_sign.
Qed.

Lemma jwt_verify_malformed now token :
  jwt_decode token JWT_SECRET = None → jwt_verify now token JWT_SECRET = None.
Proof. intros Hd. unfold jwt_verify. by rewrite Hd. Qed.

Lemma jwt_verify_expired now token decoded :
  jwt_decode token JWT_SECRET = Some decoded →
  (exp decoded ≤ seconds now)%N →
  jwt_verify now token JWT_SECRET = None.
Proof.
  intros Hd Hexp. unfold jwt_verify. rewrite Hd.
  destruct (N.leb_spec (exp decoded) (seconds now)); [done|lia].
Qed.

(** C5. On every protected route: without an Authorization header the
    answer is 401; with a header whose token does not verify the
    answer is 401; whenever the guard answers, it answers 401 and
    whatever handler follows it is not run, the collection staying as
    it was; and the handler runs only on a request whose header holds
    a token that verified, with [req.userId] set to the identity in
    that token. *)
Theorem C5_access_guard {S : Type} (r : TaskRoute) (now : N)
    (handler : AuthedRequest → S → Response * S) (req : Request) (db : S) :
  (authorization req = None →
   ∃ msg, guarded now handler req db = (failure 401 msg, db)) ∧
  (∀ h tok,
     authorization req = Some h → header_token h = Some tok →
     jwt_verify now tok JWT_SECRET = None →
     ∃ msg, guarded now handler req db = (failure 401 msg, db)) ∧
  (∀ res,
     authMiddleware now req = inl res →
     statusCode res = 401 ∧ guarded now handler req db = (res, db)) ∧
  (∀ req',
     authMiddleware now req = inr req' →
     guarded now handler req db = handler req' db ∧
     ∃ h tok decoded,
       authorization req = Some h ∧ header_token h = Some tok ∧
       jwt_verify now tok JWT_SECRET = Some decoded ∧
       req' = mkAuthed req (jwt_userId decoded)) ∧
  router r now = guarded now (task_handler r now).
Proof.
  unfold guarded, authMiddleware.
  split; [|split; [|split; [|split; [|reflexivity]]]].
  - intros ->. eauto.
  - intros h tok -> -> Hv. rewrite Hv.
    destruct h as [|c h]; [eauto|]. destruct tok as [|c' tok]; eauto.
  - intros res Hres. rewrite Hres. split; [|done].
    destruct (authorization req) as [[|c h]|];
      [by injection Hres as <-| |by injection Hres as <-].
    destruct (header_token _) as [[|c' tok]|];
      [by injection Hres as <-| |by injection Hres as <-].
    destruct (jwt_verify _ _ _); [done|]. by injection Hres as <-.
  - intros req' Hres. rewrite Hres. split; [done|].
    destruct (authorization req) as [[|c h]|]; [done| |done].
    destruct (header_token _) as [[|c' tok]|] eqn:Ht; [done| |done].
    destruct (jwt_verify _ _ _) as [d|] eqn:Hv; [|done].
    injection Hres as <-. by exists (String c h), (String c' tok), d.
Qed.

(** C10, as the code has it.  The guard never looks at the scheme: it
    calls [next()] exactly when the second component of the header,
    cut at every single space character, is a non-empty token that
    verifies.  So a header made of any space-free word, one space and
    a space-free token that verifies is accepted, and a header without
    a space is answered 401. *)
Theorem C10_guard_ignores_scheme (now : N) (req : Request) :
  (∀ req',
     authMiddleware now req = inr req' ↔
     ∃ h tok decoded,
       authorization req = Some h ∧
       JS.split " " h !! 1 = Some tok ∧ tok ≠ "" ∧
       jwt_verify now tok JWT_SECRET = Some decoded ∧
       req' = mkAuthed req (jwt_userId decoded)) ∧
  (∀ scheme tok decoded,
     authorization req = Some (scheme +:+ String " " tok) →
     free_of " " scheme → free_of " " tok → tok ≠ "" →
     jwt_verify now tok JWT_SECRET = Some decoded →
     authMiddleware now req = inr (mkAuthed req (jwt_userId decoded))) ∧
  (∀ h,
     authorization req = Some h → free_of " " h →
     ∃ msg, authMiddleware now req = inl (failure 401 msg)).
Proof.
  assert (∀ req',
     authMiddleware now req = inr req' ↔
     ∃ h tok decoded,
       authorization req = Some h ∧
       JS.split " " h !! 1 = Some tok ∧ tok ≠ "" ∧
       jwt_verify now tok JWT_SECRET = Some decoded ∧
       req' = mkAuthed req (jwt_userId decoded)) as Hiff.
  { intros req'. unfold authMiddleware, header_token. split.
    - destruct (authorization req) as [[|c h]|]; [done| |done].
      destruct (JS.split " " (String c h) !! 1) as [[|c' tok]|] eqn:Ht;
        [done| |done].
      destruct (jwt_verify _ _ _) as [d|] eqn:Hv; [|done].
      intros [= <-]. by exists (String c h), (String c' tok), d.
    - intros (h & tok & d & -> & Ht & Hne & Hv & ->).
      destruct h as [|c h]; [done|]. rewrite Ht.
      destruct tok as [|c' tok]; [done|]. by rewrite Hv. }
  split; [exact Hiff|]. split.
  - intros scheme tok d Hh Hs Ht Hne Hv. apply Hiff.
    exists (scheme +:+ String " " tok), tok, d.
    repeat split; try done.
    by apply header_token_scheme.
  - intros h Hh Hfree. unfold authMiddleware. rewrite Hh.
    rewrite (header_token_single_word h Hfree).
    destruct h; eauto.
Qed.

End BackendProperties.

(** ** Registration, login and the guard on sample data *)

(** After Alice registered, her email in another case is refused. *)
Lemma C7_email_uniqueness_witness :
  (∃ msg,
     register (platform := Toy.platform) 6000 "pepper"
       (auth_request "ALICE@x.com" "secret2") alice_registers.2 =
       (failure 400 msg, alice_registers.2)) ∧
  emails_unique alice_registers.2.
Proof.
  destruct (C7_email_uniqueness (platform := Toy.platform)) as [Hdup Huniq].
  split.
  - apply (Hdup 6000%N "pepper" (auth_request "ALICE@x.com" "secret2")
             alice_registers.2 "ALICE@x.com" 0
             (mkUser "alice@x.com" "1terces" 5000 5000)).
    + reflexivity.
    + reflexivity.
    + reflexivity.
  - apply Huniq.
    exact (users_after_register 5000 "salt"
             (auth_request "Alice@X.com " "secret1") empty_collection
             users_initial).
Defined.

(** Alice registers at time 5000 and logs in at time 9000. *)
Lemma C6_register_login_roundtrip_witness :
  ∃ uid tok1 tok2 db1,
    register (platform := Toy.platform) 5000 "salt"
      (auth_request "Alice@X.com " "secret1") empty_collection =
      (mkResponse 201 true (Some "User registered successfully")
         (AuthPayload tok1 uid), db1) ∧
    (∃ u, docs db1 !! uid = Some u ∧ email u = "alice@x.com") ∧
    login (platform := Toy.platform) 9000
      (auth_request "Alice@X.com " "secret1") db1 =
      (mkResponse 200 true (Some "Login successful")
         (AuthPayload tok2 uid), db1) ∧
    (∀ t, (seconds t < seconds 5000 + seven_days)%N →
          jwt_userId <$> jwt_verify (platform := Toy.platform) t tok1 Toy.secret =
            Some uid) ∧
    (∀ t, (seconds t < seconds 9000 + seven_days)%N →
          jwt_userId <$> jwt_verify (platform := Toy.platform) t tok2 Toy.secret =
            Some uid).
Proof.
  apply (C6_register_login_roundtrip (platform := Toy.platform) 5000 9000 "salt"
           (auth_request "Alice@X.com " "secret1") empty_collection
           "Alice@X.com " "secret1").
  - exact toy_jwt_roundtrip.
  - exact toy_bcrypt_roundtrip.
  - reflexivity.
  - reflexivity.
  - discriminate.
  - simpl. lia.
  - intros id u Hu. simpl in Hu. by rewrite lookup_empty in Hu.
Defined.

(** A request without a header, and one with Alice's token. *)
Lemma C5_access_guard_witness :
  (∃ msg,
     guarded (platform := Toy.platform) 6000 (task_handler DELETE_task 6000)
       (mkRequest None 0 no_body) sample_db = (failure 401 msg, sample_db)) ∧
  guarded (platform := Toy.platform) 6000 (task_handler GET_tasks 6000)
    (bearer_request ("Bearer " +:+ alice_token)) sample_db =
    task_handler GET_tasks 6000
      (mkAuthed (bearer_request ("Bearer " +:+ alice_token)) 0) sample_db.
Proof.
  split.
  - destruct (C5_access_guard (platform := Toy.platform) DELETE_task 6000
                (task_handler DELETE_task 6000) (mkRequest None 0 no_body)
                sample_db) as [Habsent _].
    apply Habsent. reflexivity.
  - destruct (C5_access_guard (platform := Toy.platform) GET_tasks 6000
                (task_handler GET_tasks 6000)
                (bearer_request ("Bearer " +:+ alice_token)) sample_db)
      as (_ & _ & _ & Hnext & _).
    apply (Hnext (mkAuthed (bearer_request ("Bearer " +:+ alice_token)) 0)).
    reflexivity.
Defined.

(** Alice's token under the scheme Basic, and the bare word Bearer. *)
Lemma C10_guard_ignores_scheme_witness :
  authMiddleware (platform := Toy.platform) 6000
    (bearer_request ("Basic" +:+ String " " alice_token)) =
    inr (mkAuthed (bearer_request ("Basic" +:+ String " " alice_token)) 0) ∧
  ∃ msg,
    authMiddleware (platform := Toy.platform) 6000
      (bearer_request "Bearer") = inl (failure 401 msg).
Proof.
  split.
  - destruct (C10_guard_ignores_scheme (platform := Toy.platform) 6000
                (bearer_request ("Basic" +:+ String " " alice_token)))
      as (_ & Hscheme & _).
    apply (Hscheme "Basic" alice_token (mkJwt 0 5 604805)).
    + reflexivity.
    + apply (bool_decide_unpack _). vm_compute. exact I.
    + apply (bool_decide_unpack _). vm_compute. exact I.
    + discriminate.
    + reflexivity.
  - destruct (C10_guard_ignores_scheme (platform := Toy.platform) 6000
                (bearer_request "Bearer")) as (_ & _ & Hword).
    apply (Hword "Bearer").
    + reflexivity.
    + apply (bool_decide_unpack _). vm_compute. exact I.
Defined.

(** C10 as stated fails: in a header whose two words are separated by
    a tab, the second white-space-separated component is a token that
    verifies, yet the guard finds no token and answers 401. *)
Lemma C10_counterexample :
  second_whitespace_component tab_header = Some alice_token ∧
  jwt_userId <$> jwt_verify (platform := Toy.platform) 6000 alice_token Toy.secret =
    Some 0 ∧
  authMiddleware (platform := Toy.platform) 6000
    (bearer_request tab_header) =
    inl (failure 401 "Token not found. Authorization denied.").
Proof. repeat split. Qed.

(** ** Trimming and lower-casing *)

Lemma rev_app_spec s1 s2 :
  list_ascii_of_string (String.rev_app s1 s2) =
  reverse (list_ascii_of_string s1) ++ list_ascii_of_string s2.
Proof.
  revert s2. induction s1 as [|a s1 IH]; intros s2; simpl; [done|].
  rewrite IH, reverse_cons, <- app_assoc. done.
Qed.

Lemma string_rev_spec s :
  list_ascii_of_string (String.rev s) = reverse (list_ascii_of_string s).
Proof. unfold String.rev. rewrite rev_app_spec. simpl. by rewrite app_nil_r. Qed.

Lemma list_ascii_inj s1 s2 :
  list_ascii_of_string s1 = list_ascii_of_string s2 → s1 = s2.
Proof.
  intros H. rewrite <- (string_of_list_ascii_of_string s1),
    <- (string_of_list_ascii_of_string s2). by rewrite H.
Qed.

Lemma string_rev_involutive s : String.rev (String.rev s) = s.
Proof.
  apply list_ascii_inj. by rewrite !string_rev_spec, reverse_involutive.
Qed.

Lemma trimStart_idemp s : JS.trimStart (JS.trimStart s) = JS.trimStart s.
Proof.
  induction s as [|a s IH]; simpl; [done|].
  destruct (JS.is_white_space a) eqn:Ha; [done|]. simpl. by rewrite Ha.
Qed.

(** A string that does not begin with white space. *)
Lemma trimStart_fixed s :
  JS.trimStart s = s ↔
  match s with String a _ => JS.is_white_space a = false | _ => True end.
Proof.
  destruct s as [|a s]; simpl; [done|].
  destruct (JS.is_white_space a) eqn:Ha; [|done].
  split; [|done]. intros Heq. exfalso.
  assert (∀ s', String.length (JS.trimStart s') ≤ String.length s') as Hlen.
  { induction s' as [|b s' IH]; simpl; [done|].
    destruct (JS.is_white_space b); simpl; lia. }
  pose proof (Hlen s) as Hs. rewrite Heq in Hs. simpl in Hs. lia.
Qed.

Lemma trimStart_snoc s c :
  JS.is_white_space c = false →
  ∃ w, JS.trimStart (s +:+ String c "") = w +:+ String c "".
Proof.
  intros Hc. induction s as [|a s [w IH]]; simpl.
  - exists "". simpl. by rewrite Hc.
  - destruct (JS.is_white_space a); [by exists w|].
    by exists (String a s).
Qed.

Lemma string_rev_cons a s : String.rev (String a s) = String.rev s +:+ String a "".
Proof.
  apply list_ascii_inj.
  rewrite string_rev_spec. simpl.
  rewrite reverse_cons.
  assert (∀ x y, list_ascii_of_string (x +:+ y) =
                 list_ascii_of_string x ++ list_ascii_of_string y) as Happ.
  { induction x as [|b x IH]; intros y; simpl; [done|]. by rewrite IH. }
  rewrite Happ, string_rev_spec. done.
Qed.

Lemma string_rev_snoc s a : String.rev (s +:+ String a "") = String a (String.rev s).
Proof.
  rewrite <- (string_rev_involutive s) at 1.
  by rewrite <- string_rev_cons, string_rev_involutive.
Qed.

Lemma trimEnd_keeps_head a s :
  JS.is_white_space a = false →
  ∃ s', JS.trimEnd (String a s) = String a s'.
Proof.
  intros Ha. unfold JS.trimEnd. rewrite string_rev_cons.
  destruct (trimStart_snoc (String.rev s) a Ha) as [w ->].
  rewrite string_rev_snoc. eauto.
Qed.

Lemma trimEnd_idemp s : JS.trimEnd (JS.trimEnd s) = JS.trimEnd s.
Proof.
  unfold JS.trimEnd. by rewrite string_rev_involutive, trimStart_idemp.
Qed.

(** [s.trim().trim()] is [s.trim()]. *)
Lemma trim_idemp s : JS.trim (JS.trim s) = JS.trim s.
Proof.
  unfold JS.trim.
  assert (JS.trimStart (JS.trimEnd (JS.trimStart s)) =
          JS.trimEnd (JS.trimStart s)) as ->.
  { destruct (JS.trimStart s) as [|a z] eqn:Hz; [done|].
    assert (JS.is_white_space a = false) as Ha.
    { pose proof (proj1 (trimStart_fixed (String a z))) as Hfix.
      apply Hfix. rewrite <- Hz. apply trimStart_idemp. }
    destruct (trimEnd_keeps_head a z Ha) as [s' ->].
    by apply trimStart_fixed. }
  apply trimEnd_idemp.
Qed.








(** ** More on the task handlers *)

Lemma apply_update_shape b t t' :
  apply_update b t = inr t' →
  t' = mkTask (updated_title b t) (updated_description b t)
         (updated_priority b t) (updated_status b t)
         (userId t) (createdAt t) (updatedAt t).
Proof.
  unfold apply_update, JS.includes, mbind, early_bind, updated_title,
    updated_description, updated_priority, updated_status.
  destruct b as [tt dd pp ss bu be bp], t as [t1 t2 t3 t4 t5 t6 t7]. simpl.
  destruct pp as [[|c p]|], ss as [[|c' s]|]; simpl;
    repeat case_bool_decide; simpl; try done;
    intros [= <-]; by destruct tt as [[|]|], dd.
Qed.

Lemma save_cases now id orig doc db r db' :
  TaskModel.save now id orig doc db = inr (r, db') →
  TaskModel.validate doc = None ∧
  ((doc = orig ∧ r = doc ∧ db' = db) ∨
   (doc ≠ orig ∧ r = TaskModel.set_updatedAt doc now ∧
    db' = mkCollection (<[id := r]> (docs db)) (next_id db))).
Proof.
  unfold TaskModel.save.
  destruct (TaskModel.validate doc); [done|]. split; [done|].
  case_decide; simplify_eq; auto.
Qed.

(** What a handler does to the document stored under an id: nothing,
    or it removes it, or it stores a document with the same owner and
    creation time. *)
Lemma task_handler_step r now req db id t :
  tasks_reachable db →
  docs db !! id = Some t →
  docs (task_handler r now req db).2 !! id = Some t ∨
  (userId t = req_userId req ∧ params_id (request req) = id ∧
   (docs (task_handler r now req db).2 !! id = None ∨
    ∃ t', docs (task_handler r now req db).2 !! id = Some t' ∧
          userId t' = userId t ∧ createdAt t' = createdAt t)).
Proof.
  intros Hreach Ht. destruct r; simpl.
  - by left.
  - left. by apply createTask_keeps_others.
  - unfold updateTask.
    destruct (TaskModel.findOne _ _ _) as [loaded|] eqn:Hf; [|by left].
    apply findOne_Some in Hf as [Hl Ho].
    destruct (apply_update _ _) as [|doc] eqn:Ha; [by left|].
    destruct (TaskModel.save _ _ _ _ _) as [|[r db']] eqn:Hs; [by left|].
    apply save_cases in Hs as [_ [(_ & _ & ->)|(_ & -> & ->)]]; [by left|].
    simpl. destruct (decide (params_id (request req) = id)) as [<-|Hne].
    + right. assert (loaded = t) as -> by congruence.
      repeat split; try done.
      right. rewrite lookup_insert_eq. eexists. split; [done|].
      apply apply_update_shape in Ha as ->. done.
    + left. by rewrite lookup_insert_ne.
  - unfold deleteTask.
    destruct (TaskModel.findOne _ _ _) as [loaded|] eqn:Hf; [|by left].
    apply findOne_Some in Hf as [Hl Ho]. simpl.
    destruct (decide (params_id (request req) = id)) as [<-|Hne].
    + right. assert (loaded = t) as -> by congruence.
      repeat split; try done.
      left. by rewrite lookup_delete_eq.
    + left. by rewrite lookup_delete_ne.
  - unfold markTaskCompleted.
    destruct (TaskModel.findOne _ _ _) as [loaded|] eqn:Hf; [|by left].
    apply findOne_Some in Hf as [Hl Ho].
    destruct (TaskModel.save _ _ _ _ _) as [|[r db']] eqn:Hs; [by left|].
    apply save_cases in Hs as [_ [(_ & _ & ->)|(_ & -> & ->)]]; [by left|].
    simpl. destruct (decide (params_id (request req) = id)) as [<-|Hne].
    + right. assert (loaded = t) as -> by congruence.
      repeat split; try done.
      right. rewrite lookup_insert_eq. eexists. by split.
    + left. by rewrite lookup_insert_ne.
Qed.

(** No request on a task route changes or removes a task of another
    owner, whichever route and whatever id and body it carries. *)
Theorem other_owners_untouched (r : TaskRoute) (now : N)
    (req : AuthedRequest) (db : Collection Task) (id : ObjectId) (t : Task) :
  tasks_reachable db →
  docs db !! id = Some t →
  userId t ≠ req_userId req →
  docs (task_handler r now req db).2 !! id = Some t.
Proof.
  intros Hreach Ht Hne.
  by destruct (task_handler_step r now req db id t Hreach Ht)
    as [?|[? _]].
Qed.

(** A task keeps its owner and its creation time for as long as it is
    stored: no handler transfers or re-dates it. *)
Theorem owner_and_creation_fixed (r : TaskRoute) (now : N)
    (req : AuthedRequest) (db : Collection Task) (id : ObjectId)
    (t t' : Task) :
  tasks_reachable db →
  docs db !! id = Some t →
  docs (task_handler r now req db).2 !! id = Some t' →
  userId t' = userId t ∧ createdAt t' = createdAt t.
Proof.
  intros Hreach Ht Ht'.
  destruct (task_handler_step r now req db id t Hreach Ht)
    as [Hsame|(_ & _ & [Hgone|(t'' & Hnew & ? & ?)])]; simplify_eq; done.
Qed.

(** Deleting a task of the caller answers 200 and removes that task
    and no other; the task is then no longer listed and a second
    delete of the same id answers 404. *)
Theorem deleteTask_removes (req : AuthedRequest) (db : Collection Task)
    (t : Task) :
  docs db !! params_id (request req) = Some t →
  userId t = req_userId req →
  ∃ db',
    deleteTask req db =
      (mkResponse 200 true (Some "Task deleted successfully") NoPayload,
       db') ∧
    docs db' !! params_id (request req) = None ∧
    (∀ j, j ≠ params_id (request req) → docs db' !! j = docs db !! j) ∧
    (∀ t', (params_id (request req), t') ∉ listed (getAllTasks req db').1) ∧
    (∃ msg, deleteTask req db' = (failure 404 msg, db')).
Proof.
  intros Ht Ho.
  exists (TaskModel.findByIdAndDelete (params_id (request req)) db).
  assert (docs (TaskModel.findByIdAndDelete (params_id (request req)) db)
            !! params_id (request req) = None) as Hgone.
  { simpl. apply lookup_delete_eq. }
  split; [|split; [done|split; [|split]]].
  - unfold deleteTask.
    by rewrite (proj2 (findOne_Some _ _ _ _) (conj Ht Ho)).
  - intros j Hj. simpl. by rewrite lookup_delete_ne.
  - intros t' Hin. simpl in Hin.
    apply find_sorted_elem in Hin as [Hin _]. simpl in Hin.
    by rewrite lookup_delete_eq in Hin.
  - unfold deleteTask, TaskModel.findOne. rewrite Hgone. eauto.
Qed.

Lemma deleteTask_removes_witness :
  ∃ db',
    deleteTask (task_request 1 0 no_body) sample_db =
      (mkResponse 200 true (Some "Task deleted successfully") NoPayload,
       db') ∧
    docs db' !! 0 = None ∧
    (∀ j, j ≠ 0 → docs db' !! j = docs sample_db !! j) ∧
    (∀ t', (0, t') ∉ listed (getAllTasks (task_request 1 0 no_body) db').1) ∧
    (∃ msg, deleteTask (task_request 1 0 no_body) db' = (failure 404 msg, db')).
Proof.
  apply (deleteTask_removes (task_request 1 0 no_body) sample_db sample_task).
  - reflexivity.
  - reflexivity.
Defined.

Lemma other_owners_untouched_witness :
  docs (task_handler PUT_task 9 (task_request 2 0 no_body) sample_db).2 !! 0 =
    Some sample_task.
Proof.
  apply (other_owners_untouched PUT_task 9 (task_request 2 0 no_body)
           sample_db 0 sample_task).
  - exact sample_db_reachable.
  - reflexivity.
  - simpl. lia.
Defined.

Lemma owner_and_creation_fixed_witness :
  userId completed_task = userId sample_task ∧
  createdAt completed_task = createdAt sample_task.
Proof.
  apply (owner_and_creation_fixed PATCH_task_complete 7
           (task_request 1 0 no_body) sample_db 0 sample_task completed_task).
  - exact sample_db_reachable.
  - reflexivity.
  - reflexivity.
Defined.

(** Updating twice with the same request: when the first update
    answers 200, the second answers the very same response and writes
    nothing. *)
Theorem updateTask_idempotent (now1 now2 : N) (req : AuthedRequest)
    (db db1 : Collection Task) (res : Response) :
  updateTask now1 req db = (res, db1) →
  statusCode res = 200 →
  updateTask now2 req db1 = (res, db1).
Proof.
  unfold updateTask.
  destruct (TaskModel.findOne _ _ db) as [loaded|] eqn:Hf;
    [|by intros [= <- <-]].
  apply findOne_Some in Hf as [Hl Ho].
  destruct (apply_update _ loaded) as [|doc] eqn:Ha.
  { intros [= <- <-] Hst. unfold apply_update, mbind, early_bind in Ha.
    repeat case_match; simplify_eq; done. }
  destruct (TaskModel.save _ _ _ _ _) as [|[r db']] eqn:Hs;
    [by intros [= <- <-]|].
  intros [= <- <-] _.
  pose proof (apply_update_shape _ _ _ Ha) as Hdoc.
  apply save_cases in Hs as [Hv Hcase].
  assert (docs db' !! params_id (request req) = Some r ∧ userId r = userId loaded
          ∧ apply_update (body (request req)) r = inr r
          ∧ TaskModel.validate r = None) as (Hr & Hor & Har & Hvr).
  { assert (∀ x, apply_update (body (request req)) loaded = inr doc →
              title x = title doc → description x = description doc →
              priority x = priority doc → status x = status doc →
              apply_update (body (request req)) x = inr x) as Hfix.
    { intros x. clear. unfold apply_update, JS.includes, mbind, early_bind.
      destruct (body (request req)) as [tt dd pp ss bu be bp],
        loaded as [l1 l2 l3 l4 l5 l6 l7], doc as [d1 d2 d3 d4 d5 d6 d7],
        x as [x1 x2 x3 x4 x5 x6 x7]. simpl.
      intros Hrun -> -> -> ->. revert Hrun.
      destruct pp as [[|c p]|], ss as [[|c' s]|]; simpl;
        repeat case_bool_decide; simpl; try done;
        destruct tt as [[|]|], dd; simpl; intros [= ? ? ? ?]; subst;
        done. }
    destruct Hcase as [(Heq & -> & ->)|(Hne & -> & ->)].
    - split; [by rewrite Heq|]. split; [by rewrite Heq|].
      split; [by apply Hfix|done].
    - simpl. split; [by rewrite lookup_insert_eq|].
      split; [by rewrite Hdoc|]. split; [by apply Hfix|done]. }
  assert (userId r = req_userId req) as Hor' by congruence.
  rewrite (proj2 (findOne_Some _ _ _ _) (conj Hr Hor')), Har.
  by rewrite save_unchanged.
Qed.

Lemma updateTask_idempotent_witness :
  updateTask 10 reopen_request (updateTask 9 reopen_request completed_db).2 =
    ((updateTask 9 reopen_request completed_db).1,
     (updateTask 9 reopen_request completed_db).2).
Proof.
  apply (updateTask_idempotent 9 10 reopen_request completed_db).
  - apply surjective_pairing.
  - reflexivity.
Defined.

(** Completing a task is the update that carries only status
    Completed: both answer the same status with the same payload and
    leave the same collection. *)
Theorem complete_is_status_update (now : N) (req req' : AuthedRequest)
    (db : Collection Task) :
  req_userId req' = req_userId req →
  params_id (request req') = params_id (request req) →
  body_title (body (request req')) = None →
  body_description (body (request req')) = None →
  body_priority (body (request req')) = None →
  body_status (body (request req')) = Some "Completed" →
  statusCode (markTaskCompleted now req db).1 =
    statusCode (updateTask now req' db).1 ∧
  payload (markTaskCompleted now req db).1 =
    payload (updateTask now req' db).1 ∧
  (markTaskCompleted now req db).2 = (updateTask now req' db).2.
Proof.
  intros Hu Hid Ht Hd Hp Hs. unfold markTaskCompleted, updateTask.
  rewrite Hu, Hid.
  destruct (TaskModel.findOne _ _ _) as [loaded|]; [|done].
  assert (apply_update (body (request req')) loaded =
          inr (TaskModel.set_status loaded "Completed")) as ->.
  { unfold apply_update. rewrite Ht, Hd, Hp, Hs. reflexivity. }
  by destruct (TaskModel.save _ _ _ _ _) as [|[r db']].
Qed.

Lemma complete_is_status_update_witness :
  statusCode (markTaskCompleted 7 (task_request 1 0 no_body) sample_db).1 =
    statusCode
      (updateTask 7
         (task_request 1 0
            (mkBody None None None (Some "Completed") None None None))
         sample_db).1 ∧
  payload (markTaskCompleted 7 (task_request 1 0 no_body) sample_db).1 =
    payload
      (updateTask 7
         (task_request 1 0
            (mkBody None None None (Some "Completed") None None None))
         sample_db).1 ∧
  (markTaskCompleted 7 (task_request 1 0 no_body) sample_db).2 =
    (updateTask 7
       (task_request 1 0
          (mkBody None None None (Some "Completed") None None None))
       sample_db).2.
Proof.
  apply (complete_is_status_update 7 (task_request 1 0 no_body)
           (task_request 1 0
              (mkBody None None None (Some "Completed") None None None))
           sample_db); reflexivity.
Defined.

Lemma find_sorted_NoDup uid db : NoDup (TaskModel.find_sorted uid db).
Proof.
  unfold TaskModel.find_sorted. rewrite merge_sort_Permutation.
  apply NoDup_filter, NoDup_map_to_list.
Qed.

(** A create request that answers 201 adds exactly the task it
    returns to the caller's list and leaves the list of every other
    user as it was, up to the order of tasks created at the same
    time. *)
Theorem created_task_listed (now : N) (req other : AuthedRequest)
    (db db' : Collection Task) (res : Response) :
  tasks_reachable db →
  createTask now req db = (res, db') →
  statusCode res = 201 →
  ∃ id t,
    payload res = TaskPayload (id, t) ∧
    userId t = req_userId req ∧
    listed (getAllTasks req db').1 ≡ₚ (id, t) :: listed (getAllTasks req db).1 ∧
    (req_userId other ≠ req_userId req →
     listed (getAllTasks other db').1 ≡ₚ listed (getAllTasks other db).1).
Proof.
  intros Hreach Hrun Hst.
  pose proof (tasks_reachable_schema_ok _ Hreach) as Hok.
  assert (docs db !! next_id db = None) as Hfresh.
  { destruct (docs db !! next_id db) as [t|] eqn:Ht; [|done].
    destruct (Hok _ _ Ht). lia. }
  unfold createTask in Hrun.
  destruct (body_title _) as [[|c s]|]; try by simplify_eq.
  destruct (body_priority _) as [[|c' s']|]; try by simplify_eq.
  destruct (negb _); [by simplify_eq|].
  unfold TaskModel.create in Hrun.
  destruct (TaskModel.validate _); [by simplify_eq|].
  injection Hrun as <- <-.
  eexists _, _. split; [reflexivity|]. split; [reflexivity|].
  unfold getAllTasks, listed. simpl. split.
  - apply NoDup_Permutation.
    + apply find_sorted_NoDup.
    + apply NoDup_cons. split; [|apply find_sorted_NoDup].
      intros [Hin _]%find_sorted_elem. congruence.
    + intros [j x]. rewrite elem_of_cons, !find_sorted_elem. simpl.
      destruct (decide (next_id db = j)) as [<-|Hne].
      * rewrite lookup_insert_eq, Hfresh. split.
        -- intros [[= <-] _]. by left.
        -- intros [?|[? _]]; by simplify_eq.
      * rewrite lookup_insert_ne by done. split; [by right|].
        intros [?|?]; by simplify_eq.
  - intros Hother. apply NoDup_Permutation; try apply find_sorted_NoDup.
    intros [j x]. rewrite !find_sorted_elem. simpl.
    destruct (decide (next_id db = j)) as [<-|Hne].
    + rewrite lookup_insert_eq, Hfresh. split.
      * intros [[= <-] Ho]. simpl in Ho. congruence.
      * intros [? _]. done.
    + by rewrite lookup_insert_ne.
Qed.

Lemma created_task_listed_witness :
  ∃ id t,
    payload (createTask 5 sample_create empty_collection).1 =
      TaskPayload (id, t) ∧
    userId t = 1 ∧
    listed (getAllTasks sample_create sample_db).1 ≡ₚ
      (id, t) :: listed (getAllTasks sample_create empty_collection).1 ∧
    (req_userId (task_request 2 0 no_body) ≠ req_userId sample_create →
     listed (getAllTasks (task_request 2 0 no_body) sample_db).1 ≡ₚ
       listed (getAllTasks (task_request 2 0 no_body) empty_collection).1).
Proof.
  apply (created_task_listed 5 sample_create (task_request 2 0 no_body)
           empty_collection sample_db
           (createTask 5 sample_create empty_collection).1).
  - exact tasks_initial.
  - reflexivity.
  - reflexivity.
Defined.

Lemma task_handler_keeps_trimmed r now req db :
  (∀ id t, docs db !! id = Some t →
     JS.trim (title t) = title t ∧ JS.trim (description t) = description t) →
  ∀ id t, docs (task_handler r now req db).2 !! id = Some t →
    JS.trim (title t) = title t ∧ JS.trim (description t) = description t.
Proof.
  intros Hok. destruct r; simpl.
  - done.
  - unfold createTask.
    destruct (body_title _) as [[|c s]|]; try done.
    destruct (body_priority _) as [[|c' s']|]; try done.
    destruct (negb _); [done|].
    unfold TaskModel.create. destruct (TaskModel.validate _); [done|].
    simpl. intros id t.
    destruct (decide (next_id db = id)) as [<-|Hne].
    + rewrite lookup_insert_eq. intros [= <-]. simpl.
      by rewrite !trim_idemp.
    + rewrite lookup_insert_ne by done. apply Hok.
  - unfold updateTask.
    destruct (TaskModel.findOne _ _ _) as [loaded|] eqn:Hf; [|done].
    apply findOne_Some in Hf as [Hl _].
    destruct (apply_update _ _) as [|doc] eqn:Ha; [done|].
    destruct (TaskModel.save _ _ _ _ _) as [|[r db']] eqn:Hs; [done|].
    apply save_cases in Hs as [_ [(_ & _ & ->)|(_ & -> & ->)]]; [done|].
    simpl. intros id t.
    destruct (decide (params_id (request req) = id)) as [<-|Hne].
    + rewrite lookup_insert_eq. intros [= <-].
      apply apply_update_shape in Ha as ->. simpl.
      destruct (Hok _ _ Hl) as [Htt Htd].
      unfold updated_title, updated_description. split.
      * destruct (body_title _) as [[|]|]; try done. apply trim_idemp.
      * destruct (body_description _); [apply trim_idemp|done].
    + rewrite lookup_insert_ne by done. apply Hok.
  - unfold deleteTask.
    destruct (TaskModel.findOne _ _ _) as [loaded|]; [|done].
    simpl. intros id t [_ Ht]%lookup_delete_Some. exact (Hok _ _ Ht).
  - unfold markTaskCompleted.
    destruct (TaskModel.findOne _ _ _) as [loaded|] eqn:Hf; [|done].
    apply findOne_Some in Hf as [Hl _].
    destruct (TaskModel.save _ _ _ _ _) as [|[r db']] eqn:Hs; [done|].
    apply save_cases in Hs as [_ [(_ & _ & ->)|(_ & -> & ->)]]; [done|].
    simpl. intros id t.
    destruct (decide (params_id (request req) = id)) as [<-|Hne].
    + rewrite lookup_insert_eq. intros [= <-]. simpl. exact (Hok _ _ Hl).
    + rewrite lookup_insert_ne by done. apply Hok.
Qed.

Lemma tasks_reachable_trimmed db :
  tasks_reachable db →
  ∀ id t, docs db !! id = Some t →
    JS.trim (title t) = title t ∧ JS.trim (description t) = description t.
Proof.
  induction 1 as [|r now req db _ IH].
  - intros id t Ht. simpl in Ht. by rewrite lookup_empty in Ht.
  - by apply task_handler_keeps_trimmed.
Qed.

(** Every task the API can have stored has a non-empty title, a
    priority among High, Medium, Low and a status among Pending,
    Completed, and its title and description carry no white space at
    either end. *)
Theorem stored_tasks_well_formed (db : Collection Task) (id : ObjectId)
    (t : Task) :
  tasks_reachable db →
  docs db !! id = Some t →
  title t ≠ "" ∧
  priority t ∈ TaskModel.priority_enum ∧
  status t ∈ TaskModel.status_enum ∧
  JS.trim (title t) = title t ∧
  JS.trim (description t) = description t.
Proof.
  intros Hreach Ht.
  destruct (tasks_reachable_schema_ok _ Hreach _ _ Ht) as [Hv _].
  apply validate_None in Hv as (? & ? & ?).
  destruct (tasks_reachable_trimmed _ Hreach _ _ Ht).
  done.
Qed.

Lemma stored_tasks_well_formed_witness :
  title sample_task ≠ "" ∧
  priority sample_task ∈ TaskModel.priority_enum ∧
  status sample_task ∈ TaskModel.status_enum ∧
  JS.trim (title sample_task) = title sample_task ∧
  JS.trim (description sample_task) = description sample_task.
Proof.
  apply (stored_tasks_well_formed sample_db 0 sample_task).
  - exact sample_db_reachable.
  - reflexivity.
Defined.

(** ** More on registration, login and the guard *)

Section MoreBackendProperties.

Context {platform : Platform}.

Lemma lookup_email_Some e db id u :
  UserModel.lookup_email e db = Some (id, u) →
  docs db !! id = Some u ∧ email u = e.
Proof.
  unfold UserModel.lookup_email, UserModel.by_email.
  intros Hin%head_Some_elem_of%elem_of_map_to_list.
  by apply map_lookup_filter_Some in Hin.
Qed.

Lemma users_reachable_unique db : users_reachable db → emails_unique db.
Proof.
  induction 1 as [|now salt req db _ IH|now req db _ IH].
  - intros i j u v. simpl. by rewrite lookup_empty.
  - by apply register_emails_unique.
  - by rewrite login_keeps_db.
Qed.

(** What register does to the users: nothing, or it adds one user
    under the next id, with the email in stored form and the hash of a
    password of six characters or more. *)
Lemma register_effect now salt req db :
  (register now salt req db).2 = db ∨
  ∃ em pw,
    body_email (body req) = Some em ∧ body_password (body req) = Some pw ∧
    UserModel.normalize_email em ≠ "" ∧ 6 ≤ String.length pw ∧
    (∀ id u, docs db !! id = Some u → email u ≠ UserModel.normalize_email em) ∧
    register now salt req db =
      (mkResponse 201 true (Some "User registered successfully")
         (AuthPayload (generateToken now (next_id db)) (next_id db)),
       mkCollection
         (<[next_id db :=
              mkUser (UserModel.normalize_email em) (bcrypt_hash pw salt)
                now now]> (docs db))
         (S (next_id db))).
Proof.
  unfold register.
  destruct (body_email _) as [[|c em]|] eqn:He; try by left.
  destruct (body_password _) as [[|c' pw]|] eqn:Hp; try by left.
  unfold UserModel.findOne.
  destruct (UserModel.lookup_email _ db) eqn:Hl; [by left|].
  unfold UserModel.create. case_bool_decide as Hblank; [by left|].
  destruct (Nat.ltb_spec (String.length (String c' pw)) 6); [by left|].
  rewrite Hl. right. exists (String c em), (String c' pw).
  repeat split; try done. by apply lookup_email_None.
Qed.

Lemma users_reachable_bounded db id u :
  users_reachable db → docs db !! id = Some u → id < next_id db.
Proof.
  intros Hreach. revert id u.
  induction Hreach as [|now salt req db _ IH|now req db _ IH]; intros id u.
  - simpl. by rewrite lookup_empty.
  - destruct (register_effect now salt req db)
      as [->|(em & pw & _ & _ & _ & _ & _ & ->)]; [apply IH|].
    simpl. destruct (decide (next_id db = id)) as [<-|Hne]; [lia|].
    rewrite lookup_insert_ne by done. intros Hu. specialize (IH _ _ Hu). lia.
  - rewrite login_keeps_db. apply IH.
Qed.

(** Users are never changed or removed: whatever register and login
    requests follow, a stored user stays as it was stored. *)
Theorem users_never_change (now : N) (salt : string) (req : Request)
    (db : Collection User) (id : ObjectId) (u : User) :
  users_reachable db →
  docs db !! id = Some u →
  docs (register now salt req db).2 !! id = Some u ∧
  docs (login now req db).2 !! id = Some u.
Proof.
  intros Hreach Hu. split; [|by rewrite login_keeps_db].
  pose proof (users_reachable_bounded _ _ _ Hreach Hu) as Hlt.
  destruct (register_effect now salt req db)
    as [->|(em & pw & _ & _ & _ & _ & _ & ->)]; [done|].
  simpl. rewrite lookup_insert_ne by lia. done.
Qed.


(** Login on a reachable user collection, with an email and a password
    that are non-empty: when no user has the email in stored form the
    answer is 401; when one has, the answer is 200 with a fresh token
    and that user's id if bcrypt accepts the password, and otherwise
    the same 401 as for an unknown email.  Login stores nothing. *)
Theorem login_outcomes (now : N) (req : Request) (db : Collection User)
    (em pw : string) :
  users_reachable db →
  body_email (body req) = Some em →
  body_password (body req) = Some pw →
  em ≠ "" → pw ≠ "" →
  (login now req db).2 = db ∧
  ((∀ id u, docs db !! id = Some u →
            email u ≠ UserModel.normalize_email em) →
   (login now req db).1 = failure 401 "Invalid email or password") ∧
  (∀ id u,
     docs db !! id = Some u → email u = UserModel.normalize_email em →
     (login now req db).1 =
       if bcrypt_compare pw (password u)
       then mkResponse 200 true (Some "Login successful")
              (AuthPayload (generateToken now id) id)
       else failure 401 "Invalid email or password").
Proof.
  intros Hreach He Hp Hem Hpw. split; [apply login_keeps_db|].
  unfold login, UserModel.findOne. rewrite He, Hp.
  destruct em as [|c em]; [done|]. destruct pw as [|c' pw]; [done|].
  split.
  - intros Hnone. by rewrite (proj2 (lookup_email_None _ db) Hnone).
  - intros id u Hu Heq.
    destruct (UserModel.lookup_email _ db) as [[id' u']|] eqn:Hl.
    + apply lookup_email_Some in Hl as [Hu' Heq'].
      assert (id' = id) as ->.
      { eapply (users_reachable_unique db Hreach); eauto. congruence. }
      assert (u' = u) as -> by congruence.
      unfold comparePassword. by destruct (bcrypt_compare _ _).
    + exfalso. by apply (proj1 (lookup_email_None _ db) Hl id u).
Qed.

(** Register with a fresh, non-empty email and a non-empty password
    answers 500 and stores nothing when the password is shorter than
    six characters or the email is white space only: the schema, not
    the controller, rejects them. *)
Theorem register_rejected_by_schema (now : N) (salt : string)
    (req : Request) (db : Collection User) (em pw : string) :
  body_email (body req) = Some em →
  body_password (body req) = Some pw →
  em ≠ "" → pw ≠ "" →
  (∀ id u, docs db !! id = Some u → email u ≠ UserModel.normalize_email em) →
  UserModel.normalize_email em = "" ∨ String.length pw < 6 →
  ∃ e, register now salt req db =
         (server_error "Error registering user" (ValidationError e), db).
Proof.
  intros He Hp Hem Hpw Hfree Hbad. unfold register, UserModel.findOne.
  rewrite He, Hp.
  destruct em as [|c em]; [done|]. destruct pw as [|c' pw]; [done|].
  rewrite (proj2 (lookup_email_None _ db) Hfree).
  unfold UserModel.create. case_bool_decide as Hblank; [eauto|].
  destruct Hbad as [?|Hlen]; [done|].
  destruct (Nat.ltb_spec (String.length (String c' pw)) 6); [eauto|lia].
Qed.

Lemma authMiddleware_bearer now t uid req :
  (∀ p, jwt_decode (jwt_encode p JWT_SECRET) JWT_SECRET = Some p) →
  free_of " " (generateToken now uid) →
  generateToken now uid ≠ "" →
  authorization req = Some ("Bearer " +:+ generateToken now uid) →
  authMiddleware t req =
    if (seconds now + seven_days <=? seconds t)%N
    then inl (failure 401 "Invalid or expired token. Authorization denied.")
    else inr (mkAuthed req uid).
Proof.
  intros Hrt Hfree Hne Hh. unfold authMiddleware. rewrite Hh.
  change ("Bearer " +:+ generateToken now uid)
    with ("Bearer" +:+ String " " (generateToken now uid)).
  assert (free_of " " "Bearer") as Hb.
  { apply (bool_decide_unpack _). vm_compute. exact I. }
  rewrite (header_token_scheme _ _ Hb Hfree).
  change ("Bearer" +:+ String " " (generateToken now uid))
    with (String "B" ("earer" +:+ String " " (generateToken now uid))).
  destruct (generateToken now uid) as [|c tok] eqn:Htok; [done|].
  rewrite <- Htok. unfold jwt_verify, generateToken, jwt_sign.
  rewrite Hrt. simpl.
  by destruct (seconds now + seven_days <=? seconds t)%N.
Qed.

(** The guard on the header [Bearer <token>] for a token that
    [generateToken] issued: it lets the request through as that user
    at any time before the token's seven days are over, and answers
    401 from then on. *)
Theorem bearer_token_lifetime (now t : N) (uid : ObjectId) (req : Request) :
  (∀ p, jwt_decode (jwt_encode p JWT_SECRET) JWT_SECRET = Some p) →
  free_of " " (generateToken now uid) →
  generateToken now uid ≠ "" →
  authorization req = Some ("Bearer " +:+ generateToken now uid) →
  ((seconds t < seconds now + seven_days)%N →
   authMiddleware t req = inr (mkAuthed req uid)) ∧
  ((seconds now + seven_days ≤ seconds t)%N →
   authMiddleware t req =
     inl (failure 401 "Invalid or expired token. Authorization denied.")).
Proof.
  intros Hrt Hfree Hne Hh.
  rewrite (authMiddleware_bearer now t uid req Hrt Hfree Hne Hh).
  split; intros Ht;
    destruct (N.leb_spec (seconds now + seven_days) (seconds t)); try lia;
    done.
Qed.

(** Where the guard looks for the token: whatever follows a second
    space is ignored, and a header with nothing between its first two
    spaces, or nothing after its only space, holds no token. *)
Theorem guard_token_position (now : N) (req : Request)
    (scheme tok rest : string) :
  free_of " " scheme → free_of " " tok →
  authorization req = Some (scheme +:+ String " " tok) ∨
  authorization req = Some (scheme +:+ String " " (tok +:+ String " " rest)) →
  authMiddleware now req =
    match tok with
    | EmptyString => inl (failure 401 "Token not found. Authorization denied.")
    | String _ _ =>
        match jwt_verify now tok JWT_SECRET with
        | Some decoded => inr (mkAuthed req (jwt_userId decoded))
        | None =>
            inl (failure 401
                   "Invalid or expired token. Authorization denied.")
        end
    end.
Proof.
  intros Hs Ht Hh. unfold authMiddleware.
  assert (∃ h, authorization req = Some h ∧ h ≠ "" ∧
               header_token h = Some tok) as (h & -> & Hne & Htok).
  { destruct Hh as [Hh|Hh]; rewrite Hh; eexists; (split; [reflexivity|]);
      split.
    - by destruct scheme.
    - by apply header_token_scheme.
    - by destruct scheme.
    - unfold header_token. by rewrite split_app, split_app. }
  destruct h as [|c h]; [done|]. rewrite Htok.
  by destruct tok.
Qed.

End MoreBackendProperties.

Lemma alice_reachable :
  users_reachable (platform := Toy.platform) alice_registers.2.
Proof.
  exact (users_after_register 5000 "salt"
           (auth_request "Alice@X.com " "secret1") empty_collection
           users_initial).
Defined.

Lemma users_never_change_witness :
  docs (register (platform := Toy.platform) 6000 "pepper"
          (auth_request "bob@x.com" "hunter22") alice_registers.2).2 !! 0 =
    Some (mkUser "alice@x.com" "1terces" 5000 5000) ∧
  docs (login (platform := Toy.platform) 6000
          (auth_request "bob@x.com" "hunter22") alice_registers.2).2 !! 0 =
    Some (mkUser "alice@x.com" "1terces" 5000 5000).
Proof.
  apply (users_never_change (platform := Toy.platform) 6000 "pepper"
           (auth_request "bob@x.com" "hunter22") alice_registers.2 0).
  - exact alice_reachable.
  - reflexivity.
Defined.


Lemma login_outcomes_witness :
  (login (platform := Toy.platform) 6000
     (auth_request "ALICE@x.com" "wrong-password") alice_registers.2).2 =
    alice_registers.2 ∧
  ((∀ id u, docs alice_registers.2 !! id = Some u →
            email u ≠ UserModel.normalize_email "ALICE@x.com") →
   (login (platform := Toy.platform) 6000
      (auth_request "ALICE@x.com" "wrong-password") alice_registers.2).1 =
     failure 401 "Invalid email or password") ∧
  (∀ id u,
     docs alice_registers.2 !! id = Some u →
     email u = UserModel.normalize_email "ALICE@x.com" →
     (login (platform := Toy.platform) 6000
        (auth_request "ALICE@x.com" "wrong-password") alice_registers.2).1 =
       if Toy.compare "wrong-password" (password u)
       then mkResponse 200 true (Some "Login successful")
              (AuthPayload (generateToken (platform := Toy.platform) 6000 id)
                 id)
       else failure 401 "Invalid email or password").
Proof.
  apply (login_outcomes (platform := Toy.platform) 6000
           (auth_request "ALICE@x.com" "wrong-password") alice_registers.2
           "ALICE@x.com" "wrong-password").
  - exact alice_reachable.
  - reflexivity.
  - reflexivity.
  - discriminate.
  - discriminate.
Defined.

Lemma register_rejected_by_schema_witness :
  ∃ e,
    register (platform := Toy.platform) 6000 "pepper"
      (auth_request "bob@x.com" "12345") alice_registers.2 =
      (server_error "Error registering user" (ValidationError e),
       alice_registers.2).
Proof.
  apply (register_rejected_by_schema (platform := Toy.platform) 6000 "pepper"
           (auth_request "bob@x.com" "12345") alice_registers.2
           "bob@x.com" "12345").
  - reflexivity.
  - reflexivity.
  - discriminate.
  - discriminate.
  - apply lookup_email_None. vm_compute. reflexivity.
  - right. simpl. lia.
Defined.

Lemma bearer_token_lifetime_witness :
  ((seconds 6000 < seconds 5000 + seven_days)%N →
   authMiddleware (platform := Toy.platform) 6000
     (bearer_request ("Bearer " +:+ alice_token)) =
     inr (mkAuthed (bearer_request ("Bearer " +:+ alice_token)) 0)) ∧
  ((seconds 5000 + seven_days ≤ seconds 6000)%N →
   authMiddleware (platform := Toy.platform) 6000
     (bearer_request ("Bearer " +:+ alice_token)) =
     inl (failure 401 "Invalid or expired token. Authorization denied.")).
Proof.
  apply (bearer_token_lifetime (platform := Toy.platform) 5000 6000 0
           (bearer_request ("Bearer " +:+ alice_token))).
  - exact toy_jwt_roundtrip.
  - apply (bool_decide_unpack _). vm_compute. exact I.
  - discriminate.
  - reflexivity.
Defined.

Lemma guard_token_position_witness :
  authMiddleware (platform := Toy.platform) 6000
    (bearer_request ("Bearer" +:+ String " " ("" +:+ String " " alice_token))) =
    inl (failure 401 "Token not found. Authorization denied.").
Proof.
  apply (guard_token_position (platform := Toy.platform) 6000
           (bearer_request
              ("Bearer" +:+ String " " ("" +:+ String " " alice_token)))
           "Bearer" "" alice_token).
  - apply (bool_decide_unpack _). vm_compute. exact I.
  - apply (bool_decide_unpack _). vm_compute. exact I.
  - right. reflexivity.
Defined.

(** ** The client: token storage *)

(** After [setAuthToken] the default header is [Bearer] and the stored
    token, or absent when none is stored, and the stored token is never
    the empty string; a stored token survives a page reload, where
    [initAuthToken] restores the very same state; after a logout
    nothing is restored. *)
Theorem auth_token_survives_reload (token : option string) (c : Client) :
  default_Authorization (Api.setAuthToken token c) =
    (λ tok, "Bearer " +:+ tok) <$> Api.getAuthToken (Api.setAuthToken token c) ∧
  Api.getAuthToken (Api.setAuthToken token c) ≠ Some "" ∧
  (∀ tok, token = Some tok → tok ≠ "" →
     Api.getAuthToken (Api.setAuthToken token c) = Some tok) ∧
  Api.initAuthToken (Api.reload (Api.setAuthToken token c)) =
    Api.setAuthToken token c ∧
  Api.initAuthToken (Api.reload (Api.logoutUser (Api.setAuthToken token c))) =
    mkClient None None.
Proof.
  destruct token as [[|a tok]|]; simpl; repeat split; try done.
  all: intros tok' [= <-]; done.
Qed.

(** A client that logged in with the token [abc]. *)
Lemma auth_token_survives_reload_witness :
  Api.getAuthToken (Api.setAuthToken (Some "abc") sample_client) = Some "abc" ∧
  default_Authorization (Api.setAuthToken (Some "abc") sample_client) =
    Some "Bearer abc".
Proof.
  destruct (auth_token_survives_reload (Some "abc") sample_client)
    as (Hheader & _ & Hkept & _).
  split.
  - apply (Hkept "abc"); [reflexivity|discriminate].
  - rewrite Hheader. reflexivity.
Defined.

(** ** The client: the task list *)

Lemma find_sorted_NoDup_ids uid db :
  NoDup (TaskModel.find_sorted uid db).*1.
Proof.
  unfold TaskModel.find_sorted. rewrite merge_sort_Permutation.
  eapply sublist_NoDup; [apply (NoDup_fst_map_to_list (docs db))|].
  apply fmap_sublist, sublist_filter.
Qed.

Lemma StronglySorted_filter_keeps {A} (R : relation A) (P : A → Prop)
    `{!∀ x, Decision (P x)} (l : list A) :
  StronglySorted R l → StronglySorted R (filter P l).
Proof.
  induction 1 as [|x l Hs IH Hall]; [constructor|].
  rewrite filter_cons. destruct (decide (P x)); [|done].
  constructor; [done|].
  apply Forall_forall. intros y [_ Hy]%list_elem_of_filter.
  by apply (proj1 (Forall_forall _ _) Hall).
Qed.

(** The counters of the task list on what the server returns: pending
    and completed tasks add up to the total, the two status filters
    split the list between them, and with both filters on All every
    task is shown. *)
Theorem task_list_counts_add_up (req : AuthedRequest) (db : Collection Task) :
  tasks_reachable db →
  TaskList.pendingCount (listed (getAllTasks req db).1) +
  TaskList.completedCount (listed (getAllTasks req db).1) =
    length (listed (getAllTasks req db).1) ∧
  TaskList.filteredTasks "Pending" "All" (listed (getAllTasks req db).1) ++
  TaskList.filteredTasks "Completed" "All" (listed (getAllTasks req db).1) ≡ₚ
    listed (getAllTasks req db).1 ∧
  TaskList.filteredTasks "All" "All" (listed (getAllTasks req db).1) =
    listed (getAllTasks req db).1.
Proof.
  intros Hreach. unfold getAllTasks, listed. simpl.
  set (l := TaskModel.find_sorted (req_userId req) db).
  assert (Forall (λ x, status x.2 = "Pending" ∨ status x.2 = "Completed") l)
    as Hall.
  { apply Forall_forall. intros [id t] Hin.
    apply find_sorted_elem in Hin as [Ht _].
    destruct (tasks_reachable_schema_ok _ Hreach _ _ Ht) as [Hv _].
    apply validate_None in Hv as (_ & _ & Hs). simpl.
    unfold TaskModel.status_enum in Hs.
    rewrite !elem_of_cons, elem_of_nil in Hs. tauto. }
  assert (∀ sf, sf ≠ "All" →
            TaskList.filteredTasks sf "All" l =
            filter (λ t, status t.2 = sf) l) as Hstatus.
  { intros sf Hsf. apply list_filter_iff. intros x.
    unfold TaskList.shown. rewrite (bool_decide_eq_false_2 _ Hsf). simpl.
    case_bool_decide; simpl; split; done. }
  assert (TaskList.filteredTasks "All" "All" l = l) as Hall'.
  { unfold TaskList.filteredTasks. clear.
    induction l as [|x l IH]; [done|].
    rewrite filter_cons, decide_True by done. by rewrite IH. }
  rewrite !Hstatus, Hall' by done.
  unfold TaskList.pendingCount, TaskList.completedCount.
  split; [|split; [|done]].
  - clear Hstatus Hall'. clearbody l. induction l as [|x l IH]; [done|].
    apply Forall_cons in Hall as [Hx Hall]. specialize (IH Hall).
    rewrite !filter_cons.
    destruct Hx as [Hx|Hx]; rewrite Hx;
      repeat case_decide; try done; simpl; lia.
  - clear Hstatus Hall'. clearbody l. induction l as [|x l IH]; [done|].
    apply Forall_cons in Hall as [Hx Hall]. specialize (IH Hall).
    rewrite !filter_cons.
    destruct Hx as [Hx|Hx]; rewrite Hx;
      repeat case_decide; try done; simpl.
    + by rewrite IH.
    + by rewrite <- Permutation_middle, IH.
Qed.

Lemma task_list_counts_add_up_witness :
  TaskList.pendingCount (listed (getAllTasks sample_create sample_db).1) +
  TaskList.completedCount (listed (getAllTasks sample_create sample_db).1) =
    length (listed (getAllTasks sample_create sample_db).1) ∧
  TaskList.filteredTasks "Pending" "All"
    (listed (getAllTasks sample_create sample_db).1) ++
  TaskList.filteredTasks "Completed" "All"
    (listed (getAllTasks sample_create sample_db).1) ≡ₚ
    listed (getAllTasks sample_create sample_db).1 ∧
  TaskList.filteredTasks "All" "All"
    (listed (getAllTasks sample_create sample_db).1) =
    listed (getAllTasks sample_create sample_db).1.
Proof.
  apply (task_list_counts_add_up sample_create sample_db).
  exact sample_db_reachable.
Defined.

(** After a delete that the server answered 200, the list the client
    keeps by dropping the task holds the same tasks as the list the
    server would now return, and is still ordered newest first. *)
Theorem client_delete_matches_server (req : AuthedRequest)
    (db : Collection Task) :
  statusCode (deleteTask req db).1 = 200 →
  TaskList.handleTaskDelete (params_id (request req))
    (listed (getAllTasks req db).1) ≡ₚ
    listed (getAllTasks req (deleteTask req db).2).1 ∧
  StronglySorted TaskModel.newer_first
    (TaskList.handleTaskDelete (params_id (request req))
       (listed (getAllTasks req db).1)).
Proof.
  unfold deleteTask.
  destruct (TaskModel.findOne _ _ _) as [loaded|]; [|done].
  intros _. unfold getAllTasks, listed, TaskList.handleTaskDelete. simpl.
  split.
  - apply NoDup_Permutation.
    + apply NoDup_filter, find_sorted_NoDup.
    + apply find_sorted_NoDup.
    + intros [j x]. rewrite list_elem_of_filter, !find_sorted_elem. simpl.
      rewrite lookup_delete_Some. naive_solver.
  - apply StronglySorted_filter_keeps.
    apply (StronglySorted_merge_sort TaskModel.newer_first).
Qed.

Lemma client_delete_matches_server_witness :
  TaskList.handleTaskDelete 0
    (listed (getAllTasks (task_request 1 0 no_body) sample_db).1) ≡ₚ
    listed (getAllTasks (task_request 1 0 no_body)
              (deleteTask (task_request 1 0 no_body) sample_db).2).1 ∧
  StronglySorted TaskModel.newer_first
    (TaskList.handleTaskDelete 0
       (listed (getAllTasks (task_request 1 0 no_body) sample_db).1)).
Proof.
  apply (client_delete_matches_server (task_request 1 0 no_body) sample_db).
  reflexivity.
Defined.

(** After a completion that the server answered 200, the list the
    client keeps by swapping in the returned task holds the same tasks
    as the list the server would now return. *)
Theorem client_complete_matches_server (now : N) (req : AuthedRequest)
    (db : Collection Task) (updatedTask : ObjectId * Task) :
  statusCode (markTaskCompleted now req db).1 = 200 →
  Api.data_task (markTaskCompleted now req db).1 = Some updatedTask →
  TaskList.handleTaskComplete updatedTask (listed (getAllTasks req db).1) ≡ₚ
    listed (getAllTasks req (markTaskCompleted now req db).2).1.
Proof.
  unfold markTaskCompleted.
  destruct (TaskModel.findOne _ _ _) as [loaded|] eqn:Hf; [|done].
  apply findOne_Some in Hf as [Hl Ho].
  destruct (TaskModel.save _ _ _ _ _) as [|[r db']] eqn:Hs; [done|].
  intros _ [= <-].
  assert (docs db' !! params_id (request req) = Some r ∧
          (∀ j, j ≠ params_id (request req) → docs db' !! j = docs db !! j) ∧
          userId r = req_userId req) as (Hr & Hrest & Hor).
  { apply save_cases in Hs as [_ [(Heq & -> & ->)|(_ & -> & ->)]].
    - by rewrite <- Heq in Hl.
    - simpl. rewrite lookup_insert_eq. repeat split; try done.
      intros j Hj. by rewrite lookup_insert_ne. }
  clear Hs.
  change (listed (getAllTasks req db).1)
    with (TaskModel.find_sorted (req_userId req) db).
  change (listed (getAllTasks req (mkResponse 200 true (Some "Task marked as completed")
             (TaskPayload (params_id (request req), r)), db').2).1)
    with (TaskModel.find_sorted (req_userId req) db').
  unfold TaskList.handleTaskComplete.
  change ((params_id (request req), r).1) with (params_id (request req)).
  apply NoDup_Permutation.
  - apply (NoDup_fmap_1 fst). rewrite <- list_fmap_compose.
    erewrite (list_fmap_ext _ fst); [apply find_sorted_NoDup_ids|].
    intros i [j x] _. unfold compose. by destruct (decide _).
  - apply find_sorted_NoDup.
  - intros [j x]. rewrite list_elem_of_fmap, find_sorted_elem. split.
    + intros ([k y] & Hx & [Hy Hoy]%find_sorted_elem).
      destruct (decide _) as [Hk|Hk]; injection Hx as -> ->.
      * done.
      * split; [|done]. rewrite Hrest; done.
    + intros [Hx Hox].
      destruct (decide (j = params_id (request req))) as [->|Hj].
      * exists (params_id (request req), loaded).
        rewrite find_sorted_elem.
        rewrite decide_True by done. split; [congruence|done].
      * exists (j, x). rewrite find_sorted_elem.
        rewrite decide_False by done. rewrite Hrest in Hx by done. done.
Qed.

Lemma client_complete_matches_server_witness :
  TaskList.handleTaskComplete (0, completed_task)
    (listed (getAllTasks (task_request 1 0 no_body) sample_db).1) ≡ₚ
    listed (getAllTasks (task_request 1 0 no_body) completed_db).1.
Proof.
  apply (client_complete_matches_server 7 (task_request 1 0 no_body)
           sample_db (0, completed_task)).
  - reflexivity.
  - reflexivity.
Defined.

(** ** The client: the task form *)

Lemma handleSubmit_submits task st st' submitted :
  TaskForm.handleSubmit task st = (st', Some submitted) →
  JS.trim (form_title (TaskForm.formData st)) ≠ "" ∧
  form_priority (TaskForm.formData st) ≠ "" ∧
  submitted =
    mkFormData (JS.trim (form_title (TaskForm.formData st)))
      (form_description (TaskForm.formData st))
      (form_priority (TaskForm.formData st)) ∧
  st' = match task with
        | None => TaskForm.mkState TaskForm.blank_form (TaskForm.error st)
        | Some _ => st
        end.
Proof.
  unfold TaskForm.handleSubmit.
  destruct (JS.trim _) as [|c ttl] eqn:Ht; [done|].
  destruct (form_priority _) as [|c' p] eqn:Hp; [done|].
  intros [= <- <-]. done.
Qed.

(** The form submits nothing exactly when the title is empty or white
    space only, or the priority is empty.  What it submits in create
    mode, with a priority among High, Medium, Low, the create handler
    answers with 201, storing the submitted title as it is, the
    description trimmed, and status Pending; the form is then reset. *)
Theorem task_form_create_accepted (now : N) (st st' : TaskForm.State)
    (submitted : FormData) (req : AuthedRequest) (db : Collection Task) :
  ((TaskForm.handleSubmit None st).2 = None ↔
   JS.trim (form_title (TaskForm.formData st)) = "" ∨
   form_priority (TaskForm.formData st) = "") ∧
  (TaskForm.handleSubmit None st = (st', Some submitted) →
   form_priority submitted ∈ TaskModel.priority_enum →
   body (request req) = Api.form_body submitted →
   TaskForm.formData st' = TaskForm.blank_form ∧
   createTask now req db =
     let t := mkTask (form_title submitted)
                (JS.trim (form_description submitted))
                (form_priority submitted) "Pending" (req_userId req)
                now now in
     (mkResponse 201 true (Some "Task created successfully")
        (TaskPayload (next_id db, t)),
      mkCollection (<[next_id db := t]> (docs db)) (S (next_id db)))).
Proof.
  split.
  - unfold TaskForm.handleSubmit.
    destruct (JS.trim _) as [|c ttl]; [simpl; tauto|].
    destruct (form_priority _) as [|c' p]; simpl; [tauto|].
    split; [done|]. by intros [?|?].
  - intros Hsub Hprio Hbody.
    apply handleSubmit_submits in Hsub as (Ht & Hp & -> & ->).
    split; [done|]. simpl in *.
    rewrite (createTask_creates now req db
               (JS.trim (form_title (TaskForm.formData st)))
               (form_priority (TaskForm.formData st))).
    + rewrite Hbody. simpl. by rewrite trim_idemp.
    + by rewrite Hbody.
    + by rewrite Hbody.
    + done.
    + by rewrite trim_idemp.
Qed.

Lemma task_form_create_accepted_witness :
  TaskForm.formData
    (TaskForm.mkState TaskForm.blank_form "") = TaskForm.blank_form ∧
  createTask 5
    (task_request 1 0
       (Api.form_body (mkFormData "Write report" " draft " "High")))
    empty_collection =
    let t := mkTask "Write report" (JS.trim " draft ") "High" "Pending" 1 5 5 in
    (mkResponse 201 true (Some "Task created successfully")
       (TaskPayload (0, t)),
     mkCollection (<[0 := t]> ∅) 1).
Proof.
  destruct (task_form_create_accepted 5 sample_form
              (TaskForm.mkState TaskForm.blank_form "")
              (mkFormData "Write report" " draft " "High")
              (task_request 1 0
                 (Api.form_body (mkFormData "Write report" " draft " "High")))
              empty_collection) as [_ Hsub].
  apply Hsub.
  - reflexivity.
  - apply (bool_decide_unpack _). vm_compute. exact I.
  - reflexivity.
Defined.

(** What the form submits in edit mode, with a priority among High,
    Medium, Low, the update handler applies to a task of the caller
    with 200: the stored task takes the submitted title as it is, the
    description trimmed and the priority, and keeps its status. *)
Theorem task_form_edit_applied (now : N) (task : Task)
    (st st' : TaskForm.State) (submitted : FormData) (req : AuthedRequest)
    (db : Collection Task) (t : Task) :
  tasks_reachable db →
  TaskForm.handleSubmit (Some task) st = (st', Some submitted) →
  form_priority submitted ∈ TaskModel.priority_enum →
  body (request req) = Api.form_body submitted →
  docs db !! params_id (request req) = Some t →
  userId t = req_userId req →
  st' = st ∧
  ∃ t' db',
    updateTask now req db =
      (mkResponse 200 true (Some "Task updated successfully")
         (TaskPayload (params_id (request req), t')), db') ∧
    docs db' !! params_id (request req) = Some t' ∧
    title t' = form_title submitted ∧
    description t' = JS.trim (form_description submitted) ∧
    priority t' = form_priority submitted ∧
    status t' = status t.
Proof.
  intros Hreach Hsub Hprio Hbody Ht Ho.
  apply handleSubmit_submits in Hsub as (Htt & Hp & -> & ->).
  split; [done|]. simpl in *.
  destruct (tasks_reachable_schema_ok _ Hreach _ _ Ht) as [Hv _].
  destruct (updateTask_applies now req db t Hv Ht Ho)
    as (t' & db' & Hrun & Hst & _ & H1 & H2 & H3 & H4 & _).
  - rewrite Hbody. simpl. intros (v & [= <-] & _ & Hbad). done.
  - rewrite Hbody. simpl. by intros (v & [=] & _).
  - rewrite Hbody. simpl. intros (v & [= <-] & _ & Hblank).
    by rewrite trim_idemp in Hblank.
  - exists t', db'. rewrite Hbody in H1, H2, H3, H4.
    unfold updated_title, updated_description, updated_priority,
      updated_status in *. simpl in *.
    destruct (JS.trim (form_title (TaskForm.formData st))) as [|c ttl] eqn:E;
      [done|].
    destruct (form_priority (TaskForm.formData st)) as [|c' p] eqn:E';
      [done|].
    rewrite <- E in H1. rewrite trim_idemp in H1. rewrite E in H1. done.
Qed.

Lemma task_form_edit_applied_witness :
  sample_form = sample_form ∧
  ∃ t' db',
    updateTask 9
      (task_request 1 0
         (Api.form_body (mkFormData "Write report" " draft " "High")))
      completed_db =
      (mkResponse 200 true (Some "Task updated successfully")
         (TaskPayload (0, t')), db') ∧
    docs db' !! 0 = Some t' ∧
    title t' = "Write report" ∧
    description t' = JS.trim " draft " ∧
    priority t' = "High" ∧
    status t' = "Completed".
Proof.
  apply (task_form_edit_applied 9 completed_task sample_form sample_form
           (mkFormData "Write report" " draft " "High")
           (task_request 1 0
              (Api.form_body (mkFormData "Write report" " draft " "High")))
           completed_db completed_task).
  - exact completed_db_reachable.
  - reflexivity.
  - apply (bool_decide_unpack _). vm_compute. exact I.
  - reflexivity.
  - reflexivity.
  - reflexivity.
Defined.

(** Opening the edit form on a stored task of the caller and
    submitting it unchanged: the form submits the task's own title,
    description and priority, and the update answers 200 with the
    task as it was and writes nothing. *)
Theorem task_form_unchanged_edit_writes_nothing (now : N)
    (st : TaskForm.State) (req : AuthedRequest) (db : Collection Task)
    (t : Task) :
  tasks_reachable db →
  docs db !! params_id (request req) = Some t →
  userId t = req_userId req →
  body (request req) =
    Api.form_body (mkFormData (title t) (description t) (priority t)) →
  (TaskForm.handleSubmit (Some t) (TaskForm.populate (Some t) st)).2 =
    Some (mkFormData (title t) (description t) (priority t)) ∧
  updateTask now req db =
    (mkResponse 200 true (Some "Task updated successfully")
       (TaskPayload (params_id (request req), t)), db).
Proof.
  intros Hreach Ht Ho Hbody.
  destruct (tasks_reachable_schema_ok _ Hreach _ _ Ht) as [Hv _].
  pose proof Hv as Hv'. apply validate_None in Hv' as (Htt & Hp & Hs).
  destruct (tasks_reachable_trimmed _ Hreach _ _ Ht) as [Htr Hdr].
  assert (priority t ≠ "") as Hpne.
  { intros Heq. rewrite Heq in Hp. by destruct empty_not_a_priority. }
  split.
  - unfold TaskForm.handleSubmit, TaskForm.populate. simpl.
    destruct (priority t) as [|c p] eqn:Ep; [done|].
    rewrite Htr. destruct (title t) as [|c' ttl] eqn:Et; [done|]. done.
  - unfold updateTask.
    rewrite (proj2 (findOne_Some _ _ _ _) (conj Ht Ho)).
    rewrite (apply_update_ok _ t).
    + rewrite Hbody.
      unfold updated_title, updated_description, updated_priority,
        updated_status. simpl.
      destruct (title t) as [|c' ttl] eqn:Et; [done|].
      destruct (priority t) as [|c p] eqn:Ep; [done|].
      rewrite Htr, Hdr.
      assert (mkTask (String c' ttl) (description t) (String c p) (status t)
                (userId t) (createdAt t) (updatedAt t) = t) as ->.
      { destruct t; simpl in *; by subst. }
      by rewrite save_unchanged.
    + rewrite Hbody. simpl. intros (v & [= <-] & _ & Hbad). done.
    + rewrite Hbody. simpl. by intros (v & [=] & _).
Qed.

Lemma task_form_unchanged_edit_writes_nothing_witness :
  (TaskForm.handleSubmit (Some completed_task)
     (TaskForm.populate (Some completed_task) sample_form)).2 =
    Some (mkFormData "A" "" "High") ∧
  updateTask 9
    (task_request 1 0 (Api.form_body (mkFormData "A" "" "High")))
    completed_db =
    (mkResponse 200 true (Some "Task updated successfully")
       (TaskPayload (0, completed_task)), completed_db).
Proof.
  apply (task_form_unchanged_edit_writes_nothing 9 sample_form
           (task_request 1 0 (Api.form_body (mkFormData "A" "" "High")))
           completed_db completed_task).
  - exact completed_db_reachable.
  - reflexivity.
  - reflexivity.
  - reflexivity.
Defined.

(** ** The client: registration, login and the session *)

Section ClientProperties.

Context {platform : Platform}.

Lemma register_succeeds now salt req db em pw :
  body_email (body req) = Some em →
  body_password (body req) = Some pw →
  UserModel.normalize_email em ≠ "" →
  6 ≤ String.length pw →
  (∀ id u, docs db !! id = Some u → email u ≠ UserModel.normalize_email em) →
  register now salt req db =
    (mkResponse 201 true (Some "User registered successfully")
       (AuthPayload (generateToken now (next_id db)) (next_id db)),
     mkCollection
       (<[next_id db :=
            mkUser (UserModel.normalize_email em) (bcrypt_hash pw salt)
              now now]> (docs db))
       (S (next_id db))).
Proof.
  intros He Hp Hne Hlen Hfree.
  destruct em as [|c em]; [done|].
  destruct pw as [|c' pw]; [simpl in Hlen; lia|].
  unfold register, UserModel.findOne, UserModel.create. rewrite He, Hp.
  rewrite (proj2 (lookup_email_None _ db) Hfree).
  rewrite bool_decide_eq_false_2 by done.
  destruct (Nat.ltb_spec (String.length (String c' pw)) 6); [lia|done].
Qed.

Lemma tasks_call_with_token now t uid c db :
  (∀ p, jwt_decode (jwt_encode p JWT_SECRET) JWT_SECRET = Some p) →
  free_of " " (generateToken now uid) →
  generateToken now uid ≠ "" →
  default_Authorization c = Some ("Bearer " +:+ generateToken now uid) →
  Api.getAllTasks t c db =
    if (seconds now + seven_days <=? seconds t)%N
    then (Rejected
            (failure 401 "Invalid or expired token. Authorization denied."),
          db)
    else (Resolved (TaskModel.find_sorted uid db), db).
Proof.
  intros Hrt Hfree Hne Hh. unfold Api.getAllTasks, router, guarded.
  rewrite (authMiddleware_bearer now t uid (Api.request_of c 0 no_body)
             Hrt Hfree Hne Hh).
  by destruct (seconds now + seven_days <=? seconds t)%N.
Qed.

(** A registration form that passes the checks of the form holds a
    password of six characters or more, twice the same.  Sent through
    the service, with an email that is not white space only and that
    no user has, it is answered 201: the user is stored with the
    email lower-cased and trimmed, and the client keeps the token and
    sends it as [Bearer] header from then on. *)
Theorem registration_form_accepted (now : N) (salt : string)
    (form : Register.FormState) (userData : Credentials) (c : Client)
    (users : Collection User) :
  Register.handleSubmit form = inr userData →
  UserModel.normalize_email (Register.email_field form) ≠ "" →
  (∀ id u, docs users !! id = Some u →
     email u ≠ UserModel.normalize_email (Register.email_field form)) →
  generateToken now (next_id users) ≠ "" →
  6 ≤ String.length (Register.password_field form) ∧
  Register.password_field form = Register.confirmPassword_field form ∧
  Api.registerUser now salt userData c users =
    (Resolved
       (mkResponse 201 true (Some "User registered successfully")
          (AuthPayload (generateToken now (next_id users)) (next_id users))),
     mkClient (Some (generateToken now (next_id users)))
       (Some ("Bearer " +:+ generateToken now (next_id users))),
     mkCollection
       (<[next_id users :=
            mkUser (UserModel.normalize_email (Register.email_field form))
              (bcrypt_hash (Register.password_field form) salt) now now]>
          (docs users))
       (S (next_id users))).
Proof.
  intros Hform Hne Hfree Htok.
  unfold Register.handleSubmit in Hform.
  destruct (Register.email_field form) as [|c1 em] eqn:Hem; [done|].
  destruct (Register.password_field form) as [|c2 pw] eqn:Hpw; [done|].
  destruct (Register.confirmPassword_field form) as [|c3 cf] eqn:Hcf;
    [done|].
  case_bool_decide as Hsame; [|done]. cbn [negb] in Hform.
  destruct (String.length (String c2 pw) <? 6) eqn:Hlen; [done|].
  apply Nat.ltb_ge in Hlen.
  injection Hform as <-.
  split; [done|]. split; [done|].
  unfold Api.registerUser.
  rewrite (register_succeeds now salt _ users (String c1 em) (String c2 pw));
    try done.
  unfold Api.save_token. simpl.
  by destruct (generateToken now (next_id users)).
Qed.

(** A login through the service that resolves was answered for a
    stored user whose email, in stored form, and password match.  The
    client then holds that user's token: until the token's seven days
    are over every list call resolves with that user's tasks, also
    after a page reload, and from then on it is rejected with 401;
    after a logout it is rejected with 401 at once. *)
Theorem login_session (now : N) (userData : Credentials) (c c' : Client)
    (users users' : Collection User) (response : Response) :
  (∀ p, jwt_decode (jwt_encode p JWT_SECRET) JWT_SECRET = Some p) →
  (∀ p, free_of " " (jwt_encode p JWT_SECRET) ∧ jwt_encode p JWT_SECRET ≠ "") →
  Api.loginUser now userData c users = (Resolved response, c', users') →
  ∃ uid u,
    docs users !! uid = Some u ∧
    email u = UserModel.normalize_email (cred_email userData) ∧
    bcrypt_compare (cred_password userData) (password u) = true ∧
    users' = users ∧
    payload response = AuthPayload (generateToken now uid) uid ∧
    Api.getAuthToken c' = Some (generateToken now uid) ∧
    Api.initAuthToken (Api.reload c') = c' ∧
    (∀ t db,
       Api.getAllTasks t c' db =
         if (seconds now + seven_days <=? seconds t)%N
         then (Rejected
                 (failure 401
                    "Invalid or expired token. Authorization denied."), db)
         else (Resolved (TaskModel.find_sorted uid db), db)) ∧
    (∀ t db,
       Api.getAllTasks t (Api.logoutUser c') db =
         (Rejected (failure 401 "No token provided. Authorization denied."),
          db)).
Proof.
  intros Hrt Htok. unfold Api.loginUser, login, UserModel.findOne. simpl.
  destruct (cred_email userData) as [|c1 em] eqn:Hem; [by intros [=]|].
  destruct (cred_password userData) as [|c2 pw] eqn:Hpw; [by intros [=]|].
  destruct (UserModel.lookup_email _ users) as [[uid u]|] eqn:Hl;
    [|by intros [=]].
  apply lookup_email_Some in Hl as [Hu He].
  unfold comparePassword.
  destruct (bcrypt_compare _ (password u)) eqn:Hc; [|by intros [=]].
  simpl. intros [= <- <- <-].
  destruct (Htok (mkJwt uid (seconds now) (seconds now + seven_days)))
    as [Hfree Hne].
  fold (jwt_sign now uid JWT_SECRET) in Hfree, Hne.
  fold (generateToken now uid) in Hfree, Hne.
  exists uid, u. unfold Api.save_token. simpl.
  destruct (generateToken now uid) as [|c3 tok] eqn:Hg; [done|].
  rewrite <- Hg. repeat split; try done.
  - unfold Api.initAuthToken, Api.reload, Api.getAuthToken. simpl.
    by rewrite Hg.
  - intros t db. apply tasks_call_with_token; try done.
    + by rewrite Hg.
    + by rewrite Hg.
Qed.

End ClientProperties.

Lemma registration_form_accepted_witness :
  6 ≤ String.length (Register.password_field sample_registration) ∧
  Register.password_field sample_registration =
    Register.confirmPassword_field sample_registration ∧
  Api.registerUser (platform := Toy.platform) 6000 "pepper"
    (mkCredentials "Bob@X.com" "hunter22") sample_client alice_registers.2 =
    (Resolved
       (mkResponse 201 true (Some "User registered successfully")
          (AuthPayload (generateToken (platform := Toy.platform) 6000 1) 1)),
     mkClient (Some (generateToken (platform := Toy.platform) 6000 1))
       (Some ("Bearer " +:+ generateToken (platform := Toy.platform) 6000 1)),
     mkCollection
       (<[1 := mkUser (UserModel.normalize_email "Bob@X.com")
                 (Toy.hash "hunter22" "pepper") 6000 6000]>
          (docs alice_registers.2))
       2).
Proof.
  apply (registration_form_accepted (platform := Toy.platform) 6000 "pepper"
           sample_registration (mkCredentials "Bob@X.com" "hunter22")
           sample_client alice_registers.2).
  - reflexivity.
  - discriminate.
  - apply lookup_email_None. vm_compute. reflexivity.
  - discriminate.
Defined.

Lemma toy_token_shape p :
  free_of " " (Toy.encode p Toy.secret) ∧ Toy.encode p Toy.secret ≠ "".
Proof.
  assert (∀ q, free_of " " (Toy.enc_pos q)) as Hpos.
  { induction q as [q IH|q IH|]; simpl.
    - apply free_of_cons. split; [done|apply IH].
    - apply free_of_cons. split; [done|apply IH].
    - unfold free_of. simpl. apply not_elem_of_nil. }
  assert (∀ x y, free_of " " x → free_of " " y → free_of " " (x +:+ y))
    as Happ.
  { induction x as [|a x IH]; intros y Hx Hy; [done|].
    apply free_of_cons in Hx as [? ?]. change (String a x +:+ y)
      with (String a (x +:+ y)). apply free_of_cons. auto. }
  assert (∀ y, free_of " " y → free_of " " (String "." y)) as Hdot.
  { intros y Hy. apply free_of_cons. by split. }
  split.
  - unfold Toy.encode, Toy.enc_N.
    apply Happ; [apply Hpos|]. apply Hdot.
    apply Happ; [apply Hpos|]. apply Hdot.
    apply Happ; [apply Hpos|]. apply Hdot.
    unfold free_of, Toy.secret. simpl.
    rewrite !not_elem_of_cons. repeat split; try discriminate.
    apply not_elem_of_nil.
  - unfold Toy.encode. destruct (Toy.enc_N _); done.
Qed.

Lemma login_session_witness :
  ∃ uid u,
    docs alice_registers.2 !! uid = Some u ∧
    email u = UserModel.normalize_email "ALICE@x.com" ∧
    Toy.compare "secret1" (password u) = true ∧
    alice_registers.2 = alice_registers.2 ∧
    payload
      (login (platform := Toy.platform) 9000
         (auth_request "ALICE@x.com" "secret1") alice_registers.2).1 =
      AuthPayload (generateToken (platform := Toy.platform) 9000 uid) uid ∧
    Api.getAuthToken
      (Api.save_token
         (login (platform := Toy.platform) 9000
            (auth_request "ALICE@x.com" "secret1") alice_registers.2).1
         sample_client) =
      Some (generateToken (platform := Toy.platform) 9000 uid) ∧
    Api.initAuthToken
      (Api.reload
         (Api.save_token
            (login (platform := Toy.platform) 9000
               (auth_request "ALICE@x.com" "secret1") alice_registers.2).1
            sample_client)) =
      Api.save_token
        (login (platform := Toy.platform) 9000
           (auth_request "ALICE@x.com" "secret1") alice_registers.2).1
        sample_client ∧
    (∀ t db,
       Api.getAllTasks (platform := Toy.platform) t
         (Api.save_token
            (login (platform := Toy.platform) 9000
               (auth_request "ALICE@x.com" "secret1") alice_registers.2).1
            sample_client) db =
         if (seconds 9000 + seven_days <=? seconds t)%N
         then (Rejected
                 (failure 401
                    "Invalid or expired token. Authorization denied."), db)
         else (Resolved (TaskModel.find_sorted uid db), db)) ∧
    (∀ t db,
       Api.getAllTasks (platform := Toy.platform) t
         (Api.logoutUser
            (Api.save_token
               (login (platform := Toy.platform) 9000
                  (auth_request "ALICE@x.com" "secret1")
                  alice_registers.2).1
               sample_client)) db =
         (Rejected (failure 401 "No token provided. Authorization denied."),
          db)).
Proof.
  apply (login_session (platform := Toy.platform) 9000
           (mkCredentials "ALICE@x.com" "secret1") sample_client
           (Api.save_token
              (login (platform := Toy.platform) 9000
                 (auth_request "ALICE@x.com" "secret1") alice_registers.2).1
              sample_client)
           alice_registers.2 alice_registers.2
           (login (platform := Toy.platform) 9000
              (auth_request "ALICE@x.com" "secret1") alice_registers.2).1).
  - exact toy_jwt_roundtrip.
  - exact toy_token_shape.
  - reflexivity.
Defined.
